(** * Tornet: the IP-rotation control loop of tornet.py

    A shallow embedding of the functions of [tornet.py] that probe the public
    IP address, rotate the Tor circuit, verify the rotation with retries and
    repeat the cycle on a schedule.

    The program is sequential Python that talks to the outside world
    (HTTP requests, the Tor control port, the service manager, the clock,
    the terminal).  It is embedded in a small monad of our own:

      - the state is the chronological log of every interaction with the
        world, each entry recording what the program asked and what the
        world answered;
      - the world is an [environment]: its answers are arbitrary functions
        of the log so far, so a theorem quantified over the environment
        holds for every deterministic behaviour of the network, of the
        daemon and of the operating system;
      - a computation ends with a value ([Ok]), with a Python exception
        ([Raise]), or is cut short by the fuel of an unbounded loop
        ([OutOfFuel]). *)

From Stdlib Require Import ZArith List Bool Ascii String Lia.
From stdpp Require Import base strings gmap.
Import ListNotations.

Local Open Scope string_scope.
Local Open Scope list_scope.
Local Open Scope Z_scope.

(** ** Python values and exceptions *)

(** The exception classes the code distinguishes.  Every exception the
    [requests] library raises is a subclass of [requests.RequestException];
    [Timeout] is the subclass the probes catch first. *)
Inductive request_exception :=
| Timeout (msg : string)                (* requests.exceptions.Timeout *)
| ConnectionError (msg : string)        (* requests.exceptions.ConnectionError *)
| HTTPError (msg : string)              (* raised by response.raise_for_status() *)
| JSONDecodeError (msg : string)        (* raised by response.json() *)
| OtherRequestException (msg : string). (* any other subclass *)

Inductive exn :=
| RequestException (e : request_exception)
| ValueError (msg : string)             (* time.sleep with a negative length *)
| Exception (msg : string).             (* anything else, e.g. stem's errors *)

Definition is_Timeout (e : exn) : bool :=
  match e with
  | RequestException (Timeout _) => true
  | _ => false
  end.

Definition is_RequestException (e : exn) : bool :=
  match e with
  | RequestException _ => true
  | _ => false
  end.

(** [str(e)] as it appears in the messages. *)
Definition exn_message (e : exn) : string :=
  match e with
  | RequestException (Timeout m)
  | RequestException (ConnectionError m)
  | RequestException (HTTPError m)
  | RequestException (JSONDecodeError m)
  | RequestException (OtherRequestException m)
  | ValueError m
  | Exception m => m
  end.

(** What a Python function hands back when the difference between [None],
    a boolean and a string matters. *)
Inductive pyval :=
| PyNone
| PyBool (b : bool)
| PyStr (s : string).

(** An IP address is a string; a probe yields it or [None]. *)
Definition ip_result := option string.

(** Python truthiness of [None | str]: [None] and the empty string are falsy. *)
Definition truthy (v : ip_result) : bool :=
  match v with
  | Some s => negb (String.eqb s "")
  | None => false
  end.

Definition ip_eqb (a b : ip_result) : bool :=
  match a, b with
  | Some x, Some y => String.eqb x y
  | None, None => true
  | _, _ => false
  end.

(** [str(v)] inside an f-string. *)
Definition format_ip (v : ip_result) : string :=
  match v with
  | Some s => s
  | None => "None"
  end.

(** ** [str.strip()] *)

(** The characters below code point 256 for which [str.isspace()] holds. *)
Definition isspace (c : ascii) : bool :=
  let n := nat_of_ascii c in
  ((9 <=? n)%nat && (n <=? 13)%nat) || ((28 <=? n)%nat && (n <=? 32)%nat)
  || (n =? 133)%nat || (n =? 160)%nat.

Fixpoint lstrip (s : string) : string :=
  match s with
  | EmptyString => EmptyString
  | String c s' => if isspace c then lstrip s' else s
  end.

Fixpoint rstrip (s : string) : string :=
  match s with
  | EmptyString => EmptyString
  | String c s' =>
      match rstrip s' with
      | EmptyString => if isspace c then EmptyString else String c EmptyString
      | r => String c r
      end
  end.

Definition strip (s : string) : string := rstrip (lstrip s).

(** ** The outside world *)

(** [requests.get(url, proxies=..., timeout=...)]. *)
Record request := {
  url : string;
  proxies : gmap string string;
  timeout : Z
}.

#[global] Instance request_eq_dec : EqDecision request.
Proof. solve_decision. Defined.

(** A reply.  [json] is what [response.json()] yields: the dictionary of
    the JSON object in the body, with the string fields the code reads from
    it (the body [ipapi.co] documents), or nothing when the body does not
    parse. *)
Record response := {
  status_code : Z;
  text : string;
  json : option (gmap string string)
}.

Definition http_outcome : Type := request_exception + response.

(** The status codes for which [raise_for_status] raises. *)
Definition error_status (r : response) : bool :=
  (400 <=? status_code r) && (status_code r <? 600).

(** The messages written with [print], without their colour codes. *)
Inductive message :=
| MsgDebug (s : string)                      (* [DEBUG] line of verbose_print *)
| MsgTorTimeout                              (* Tor connection timed out ... *)
| MsgTorTrouble (e : string)                 (* Having trouble connecting to the Tor network *)
| MsgNormalTimeout                           (* Normal IP fetch timed out ... *)
| MsgNormalTrouble (e : string)              (* Having trouble fetching the IP address *)
| MsgNewnymSent                              (* Sent NEWNYM signal to Tor for a new circuit. *)
| MsgNewnymFailed (e : string)               (* Failed to send NEWNYM ... Falling back to service reload. *)
| MsgReloadLinux                             (* Reloading Tor service (systemctl)... *)
| MsgReloadMacOS                             (* Restarting Tor service (brew services) ... *)
| MsgReloadWindowsManual                     (* On Windows, ... restart Tor Browser ... manually. *)
| MsgReloadWindowsCannot                     (* This script cannot automate ... on Windows ... *)
| MsgReloadUnsupported                       (* Unsupported OS for automatic Tor service reload. *)
| MsgNoBaseline                              (* Could not get current Tor IP. Cannot verify IP change. *)
| MsgAttempt (attempt max_retries : Z)       (* IP change attempt a/m... *)
| MsgSuccess                                 (* Successfully changed IP. *)
| MsgUnchanged (attempt : Z)                 (* IP address did not change on attempt a. Retrying... *)
| MsgNoNewIp (attempt : Z)                   (* Failed to obtain new IP on attempt a. Retrying... *)
| MsgFailedAfter (max_retries : Z)           (* Failed to change IP after m attempts. *)
| MsgWaiting (interval : Z)                  (* Waiting i seconds before changing IP... *)
| MsgWaitingOf (interval i count : Z)        (* Waiting i seconds before changing IP (k/n)... *)
| MsgIpChanged (ip country : string).        (* Your IP has been changed to : ip (country) *)

(** One interaction with the world, with the world's answer. *)
Inductive event :=
| EvPrint (m : message)                          (* print(...) *)
| EvLogDebug (s : string)                        (* logging.getLogger(__name__).debug(s) *)
| EvHttpGet (rq : request) (out : http_outcome)  (* requests.get(...) *)
| EvNewnym (port : Z) (out : option exn)         (* Controller.from_port; authenticate; signal(NEWNYM) *)
| EvSystem (cmd : string) (status : Z)           (* os.system(cmd) *)
| EvSleep (secs : Z).                            (* time.sleep(secs) *)

Definition history := list event.

(** The world and the module-level settings of [tornet.py]. *)
Record environment := {
  STEM_AVAILABLE : bool;                           (* did [import stem] succeed *)
  VERBOSE_MODE : bool;
  platform_system : string;                        (* platform.system() *)
  http_reply : history -> request -> http_outcome;
  newnym_reply : history -> option exn;            (* None: the signal was sent *)
  system_status : history -> string -> Z
}.

(** ** The monad *)

Inductive outcome (A : Type) :=
| Ok (a : A)
| Raise (e : exn)
| OutOfFuel.
Arguments Ok {A} a.
Arguments Raise {A} e.
Arguments OutOfFuel {A}.

Definition M (A : Type) : Type := history -> outcome A * history.

Definition ret {A} (a : A) : M A := fun h => (Ok a, h).

Definition bind {A B} (c : M A) (k : A -> M B) : M B :=
  fun h =>
    match c h with
    | (Ok a, h') => k a h'
    | (Raise e, h') => (Raise e, h')
    | (OutOfFuel, h') => (OutOfFuel, h')
    end.

Definition raise {A} (e : exn) : M A := fun h => (Raise e, h).

Definition out_of_fuel {A} : M A := fun h => (OutOfFuel, h).

(** [try: c except ...:] where [handlers e] is the body of the first
    [except] clause whose class contains [e], if any. *)
Definition try_except {A} (c : M A) (handlers : exn -> option (M A)) : M A :=
  fun h =>
    match c h with
    | (Raise e, h') =>
        match handlers e with
        | Some handler => handler h'
        | None => (Raise e, h')
        end
    | r => r
    end.

Definition emit (e : event) : M unit := fun h => (Ok tt, h ++ [e]).

Declare Scope monad_scope.
Delimit Scope monad_scope with monad.
Notation "x <- c ;; k" := (bind c (fun x => k))
  (at level 100, c at next level, right associativity) : monad_scope.
Notation "c ;; k" := (bind c (fun _ => k))
  (at level 100, right associativity) : monad_scope.
Local Open Scope monad_scope.

(** ** Library calls *)

Definition print (m : message) : M unit := emit (EvPrint m).

Section Program.

Variable env : environment.

Definition requests_get (rq : request) : M response :=
  fun h =>
    let out := http_reply env h rq in
    match out with
    | inl e => (Raise (RequestException e), h ++ [EvHttpGet rq out])
    | inr r => (Ok r, h ++ [EvHttpGet rq out])
    end.

(** [response.raise_for_status()]: HTTPError for 4xx and 5xx. *)
Definition raise_for_status (r : response) : M unit :=
  if error_status r
  then raise (RequestException (HTTPError "HTTP error status"))
  else ret tt.

Definition response_json (r : response) : M (gmap string string) :=
  match json r with
  | Some data => ret data
  | None => raise (RequestException (JSONDecodeError "Expecting value"))
  end.

(** [with Controller.from_port(port=...) as c: c.authenticate(); c.signal(Signal.NEWNYM)] *)
Definition controller_newnym (port : Z) : M unit :=
  fun h =>
    let out := newnym_reply env h in
    match out with
    | Some e => (Raise e, h ++ [EvNewnym port out])
    | None => (Ok tt, h ++ [EvNewnym port out])
    end.

Definition os_system (cmd : string) : M Z :=
  fun h => let st := system_status env h cmd in (Ok st, h ++ [EvSystem cmd st]).

Definition sleep (secs : Z) : M unit :=
  if secs <? 0
  then raise (ValueError "sleep length must be non-negative")
  else emit (EvSleep secs).

(** ** tornet.py *)

Definition get_os_type : string :=
  let system := platform_system env in
  if String.eqb system "Linux" then "Linux"
  else if String.eqb system "Darwin" then "macOS"
  else if String.eqb system "Windows" then "Windows"
  else "Unknown".

Definition verbose_print (s : string) : M unit :=
  (if VERBOSE_MODE env then print (MsgDebug s) else ret tt) ;;
  emit (EvLogDebug s).

Definition reload_tor_service : M pyval :=
  let os_type := get_os_type in
  verbose_print ("Attempting to reload Tor service on " +:+ os_type) ;;
  (if String.eqb os_type "Linux" then
     print MsgReloadLinux ;;
     _ <- os_system "sudo systemctl reload tor" ;;
     ret tt
   else if String.eqb os_type "macOS" then
     print MsgReloadMacOS ;;
     _ <- os_system "brew services restart tor" ;;
     ret tt
   else if String.eqb os_type "Windows" then
     print MsgReloadWindowsManual ;;
     print MsgReloadWindowsCannot
   else
     print MsgReloadUnsupported) ;;
  ret PyNone.

Definition change_ip_via_control_port : M bool :=
  verbose_print "Attempting IP change via Tor control port." ;;
  if negb (STEM_AVAILABLE env) then
    verbose_print "stem library not available, cannot use control port." ;;
    ret false
  else
    try_except
      (controller_newnym 9051 ;;
       print MsgNewnymSent ;;
       ret true)
      (fun e => Some (
         verbose_print ("Error sending NEWNYM signal: " +:+ exn_message e) ;;
         print (MsgNewnymFailed (exn_message e)) ;;
         ret false)).

Definition geolocation_request (ip_address : ip_result) : request :=
  {| url := "https://ipapi.co/" +:+ format_ip ip_address +:+ "/json/";
     proxies := ∅;
     timeout := 5 |}.

Definition get_ip_geolocation (ip_address : ip_result) : M string :=
  if negb (truthy ip_address) then ret "Unknown"
  else
    try_except
      (response <- requests_get (geolocation_request ip_address) ;;
       raise_for_status response ;;
       data <- response_json response ;;
       let country := default "Unknown" (data !! "country_name") in
       ret country)
      (fun e =>
         if is_RequestException e then Some (
           verbose_print ("Could not fetch geolocation for "
                          +:+ format_ip ip_address +:+ ": " +:+ exn_message e) ;;
           ret "Unknown")
         else None).

Definition tor_request : request :=
  {| url := "https://api.ipify.org";
     proxies := <["http" := "socks5h://127.0.0.1:9050"]>
                (<["https" := "socks5h://127.0.0.1:9050"]> ∅);
     timeout := 30 |}.

Definition ma_ip_tor : M ip_result :=
  try_except
    (verbose_print "Fetching IP via Tor proxy." ;;
     response <- requests_get tor_request ;;
     raise_for_status response ;;
     ret (Some (strip (text response))))
    (fun e =>
       if is_Timeout e then Some (
         print MsgTorTimeout ;;
         verbose_print "Tor IP fetch timed out." ;;
         ret None)
       else if is_RequestException e then Some (
         print (MsgTorTrouble (exn_message e)) ;;
         verbose_print ("Error fetching IP via Tor: " +:+ exn_message e) ;;
         ret None)
       else None).

Definition normal_request : request :=
  {| url := "https://api.ipify.org"; proxies := ∅; timeout := 10 |}.

Definition ma_ip_normal : M ip_result :=
  try_except
    (verbose_print "Fetching normal IP." ;;
     response <- requests_get normal_request ;;
     raise_for_status response ;;
     ret (Some (strip (text response))))
    (fun e =>
       if is_Timeout e then Some (
         print MsgNormalTimeout ;;
         verbose_print "Normal IP fetch timed out." ;;
         ret None)
       else if is_RequestException e then Some (
         print (MsgNormalTrouble (exn_message e)) ;;
         verbose_print ("Error fetching normal IP: " +:+ exn_message e) ;;
         ret None)
       else None).

(** [range(lo, hi)] *)
Definition range (lo hi : Z) : list Z :=
  map (fun i => lo + Z.of_nat i) (seq 0 (Z.to_nat (hi - lo))).

(** The rotation block of [change_ip]: the control port first when [stem]
    is there, the service reload otherwise.  In the source it is the
    [if ... else] statement at the head of the loop body. *)
Definition rotate : M unit :=
  signalled <- (if STEM_AVAILABLE env then change_ip_via_control_port else ret false) ;;
  if signalled then ret tt
  else (_ <- reload_tor_service ;; ret tt).

(** The loop of [change_ip] over the remaining attempt numbers;
    [current_ip_before_change] is the variable the loop re-assigns. *)
Fixpoint change_ip_attempts (attempts : list Z) (max_retries ip_check_interval : Z)
    (current_ip_before_change : ip_result) : M ip_result :=
  match attempts with
  | [] =>
      print (MsgFailedAfter max_retries) ;;
      ret None
  | attempt :: rest =>
      print (MsgAttempt attempt max_retries) ;;
      rotate ;;
      sleep ip_check_interval ;;
      new_ip <- ma_ip_tor ;;
      if truthy new_ip && negb (ip_eqb new_ip current_ip_before_change) then
        print MsgSuccess ;;
        ret new_ip
      else
        (if truthy new_ip && ip_eqb new_ip current_ip_before_change
         then print (MsgUnchanged attempt)
         else print (MsgNoNewIp attempt)) ;;
        change_ip_attempts rest max_retries ip_check_interval
          (if truthy new_ip then new_ip else current_ip_before_change)
  end.

Definition change_ip (max_retries ip_check_interval : Z) : M ip_result :=
  verbose_print "Attempting to change IP." ;;
  current_ip_before_change <- ma_ip_tor ;;
  (if negb (truthy current_ip_before_change) then print MsgNoBaseline else ret tt) ;;
  change_ip_attempts (range 1 (max_retries + 1)) max_retries ip_check_interval
    current_ip_before_change.

Definition print_ip (ip : ip_result) : M unit :=
  country <- get_ip_geolocation ip ;;
  print (MsgIpChanged (format_ip ip) country).

(** [while True: body], cut after [fuel] iterations. *)
Fixpoint while_true (fuel : nat) (body : M unit) : M unit :=
  match fuel with
  | O => out_of_fuel
  | S fuel' => body ;; while_true fuel' body
  end.

(** [for i in l: body(i)] *)
Fixpoint for_each (l : list Z) (body : Z -> M unit) : M unit :=
  match l with
  | [] => ret tt
  | i :: l' => body i ;; for_each l' body
  end.

Definition change_ip_repeatedly (fuel : nat) (interval count : Z) : M unit :=
  if count =? 0 then
    while_true fuel (
      print (MsgWaiting interval) ;;
      sleep interval ;;
      new_ip <- change_ip 3 5 ;;
      if truthy new_ip then print_ip new_ip else ret tt)
  else
    for_each (range 0 count) (fun i =>
      print (MsgWaitingOf interval (i + 1) count) ;;
      sleep interval ;;
      new_ip <- change_ip 3 5 ;;
      if truthy new_ip then print_ip new_ip else ret tt).

End Program.

(** * Around the rotation loop: the rest of tornet.py, utils.py

    [is_tor_running] and [ma_ip] talk to the same world as the rotation
    loop and live in the same monad.  The functions that manage the
    service, check the connection, install what is missing and parse the
    command line talk to more of it (the control port for a connection
    only, the file system, child processes, the interpreter): they live in
    a second monad [H] over a log of [entry], in which the entries of the
    rotation loop are one kind among others, and they call the functions
    of the rotation loop through [lift]. *)

(** ** Is Tor running, which address to show *)

(** How a command run by [subprocess.check_output] ends: with status 0, or
    with [subprocess.CalledProcessError] and its status. *)
Inductive process_result :=
| Completed
| CalledProcessError (returncode : Z).

Section Lookup.

Variable env : environment.

(** [subprocess.check_output(cmd, shell=True)]; the output is not used by
    the callers.  The log keeps the command and its exit status, as for
    [os.system]. *)
Definition check_output (cmd : string) : M process_result :=
  fun h =>
    let st := system_status env h cmd in
    (Ok (if st =? 0 then Completed else CalledProcessError st),
     h ++ [EvSystem cmd st]).

Definition is_tor_running : M bool :=
  let os_type := get_os_type env in
  verbose_print env ("Checking if Tor is running on " +:+ os_type) ;;
  if String.eqb os_type "Linux" || String.eqb os_type "macOS" then
    r <- check_output "pgrep -x tor" ;;
    match r with
    | Completed =>
        verbose_print env "Tor process found via pgrep." ;;
        ret true
    | CalledProcessError _ =>
        verbose_print env "Tor process not found via pgrep." ;;
        ret false
    end
  else if String.eqb os_type "Windows" then
    verbose_print env "Cannot reliably check Tor running status on Windows without more specific process handling. Assuming running if Tor Browser is started." ;;
    ret true
  else
    verbose_print env ("Tor running status check failed for unknown OS type: " +:+ os_type) ;;
    ret false.

Definition ma_ip : M ip_result :=
  running <- is_tor_running ;;
  if running then ma_ip_tor env
  else
    verbose_print env "Tor not detected as running, fetching normal IP." ;;
    ma_ip_normal env.

End Lookup.

(** ** Services, connectivity, shutdown *)

(** The lines these functions print, without their colour codes. *)
Inductive notice :=
| SayStartLinux            (* Starting Tor service (systemctl)... *)
| SayStartMacOS            (* Starting Tor service (brew services)... *)
| SayStartWindows          (* On Windows, please ensure Tor is running, ... *)
| SayStartUnsupported      (* Unsupported OS for automatic Tor service start. *)
| SayStopLinux             (* Stopping Tor service (systemctl)... *)
| SayStopMacOS             (* Stopping Tor service (brew services)... *)
| SayStopWindows           (* On Windows, if Tor Browser is used, close the browser ... *)
| SayStopUnsupported       (* Unsupported OS for automatic Tor service stop. *)
| SayServicesStopped       (* Tor services and tornet processes stopped. *)
| SayTerminated            (* Program terminated by user. *)
| SayCheckingInternet      (* Checking internet connection... *)
| SayInternetOk            (* Internet connection OK. *)
| SayInternetFailed        (* Internet connection failed. Retrying... *)
| SayInternetGaveUp        (* Could not establish internet connection. Exiting. *)
| SayTorStarted            (* Tor service started. Please wait a minute for Tor to connect. *)
| SayCurrentOS (system release machine : string)  (* Your current OS is: ... *)
| SayBrowserNeeded         (* To use Tor for anonymity, you need to configure your browser. *)
| SayBrowserGuidance       (* Here's general guidance for common browsers: *)
| SayBrowserManualProxy (os_type : string)        (* Firefox/Chrome (<os>): ... *)
| SayBrowserSystemProxy (os_type : string)        (* System-wide Proxy (<os>): ... *)
| SayBrowserTorBrowser (os_type : string)         (* Tor Browser (Recommended for <os>): ... *)
| SayBrowserGeneral        (* General Guidance: ... *)
| SayBrowserRevert         (* Remember to revert your browser's proxy settings ... *)
| SayAssumingPackage       (* Assuming 'tornet' is a pip-installable package. ... *)
| SayUpgradeFailed         (* Could not upgrade tornet via pip. ... *)
| SayTorMissing            (* Tor is not installed or not found. Please install Tor ... *)
| SayAutoFixComplete       (* Auto-fix complete. *)
| SayBanner                (* banner.py: the banner *)
(* utils.py *)
| SayDoing (description : string)                 (* [~] <description> *)
| SayCommandFailed (command : string)             (* Command failed: <command> *)
| SayCommandError (stderr : string)               (* Error: <stderr, stripped> *)
| SayCommandException (command message : string)  (* Exception running command ... *)
| SayCheckingPip           (* Checking pip installation... *)
| SayPipPresent            (* pip is already installed. *)
| SayPipNeedsHomebrew      (* Please install Homebrew first or install pip manually. *)
| SayPipWindows            (* On Windows, pip should come with Python. ... *)
| SayPipGaveUp             (* Could not install pip automatically. ... *)
| SayCheckingRequests      (* Checking requests library... *)
| SayRequestsPresent       (* requests library is already installed. *)
| SayInstallingRequests    (* Installing requests library... *)
| SayCheckingStem          (* Checking stem library... *)
| SayStemPresent           (* stem library is already installed. *)
| SayInstallingStem        (* Installing stem library... *)
| SayCheckingTor           (* Checking Tor installation... *)
| SayTorPresent            (* Tor is already installed. *)
| SayTorNeedsHomebrew      (* Please install Homebrew first: ... *)
| SayTorWindowsBrowser     (* On Windows, please download and install Tor Browser ... *)
| SayTorWindowsService     (* Or install Tor as a service manually. *)
| SayTorGaveUp.            (* Could not install Tor automatically. ... *)

(** The log of these functions: the entries of the rotation loop and
    theirs. *)
Inductive entry :=
| Core (e : event)
| Say (n : notice)                               (* print(...) *)
| ControllerAuth (port : Z) (out : option exn)   (* Controller.from_port; authenticate *)
| Run (command : string) (out : exn + Z * string)
    (* subprocess.run(command, shell=True, ...): exception, or return code and stderr *)
| CheckCall (args : list string) (out : exn + Z) (* subprocess.check_call(args) *)
| Signal (signum : string)                       (* signal.signal(signum, signal_handler) *)
| MakeDirs (path : string) (out : option exn)    (* os.makedirs(path, exist_ok=True) *)
| LogFile (path : string) (out : option exn)     (* logging.FileHandler(path) *)
| BasicConfig (debug console : bool)             (* logging.basicConfig(...) *)
| LogInfo (line : string).                       (* logger.info(line) *)

(** The entries of the rotation loop in a log. *)
Fixpoint core_of (l : list entry) : history :=
  match l with
  | [] => []
  | Core e :: l' => e :: core_of l'
  | _ :: l' => core_of l'
  end.

(** The command line, as [argparse] hands it to [main]. *)
Record arguments := {
  args_interval : Z;
  args_count : Z;
  args_ip : bool;
  args_auto_fix : bool;
  args_stop : bool;
  args_verbose : bool
}.

(** The world of these functions: three settings that do not change
    during a run, and the answers of the network, the Tor daemon, the
    operating system, the file system, the interpreter and the command
    line.  An answer that may change as the program goes is a function of
    the whole log so far.  [os.path.join] is taken as it is. *)
Record host := {
  stem_available : bool;                         (* STEM_AVAILABLE *)
  verbose_mode : bool;                           (* VERBOSE_MODE *)
  system_name : string;                          (* platform.system() *)
  http : list entry -> request -> http_outcome;  (* requests.get *)
  newnym : list entry -> option exn;             (* controller.signal(Signal.NEWNYM) *)
  exit_status : list entry -> string -> Z;       (* os.system, subprocess.check_output *)
  controller_reply : list entry -> option exn;   (* None: connected and authenticated *)
  environ_get : string -> option string;         (* os.environ.get *)
  path_join : string -> list string -> string;   (* os.path.join *)
  path_exists : list entry -> string -> bool;    (* os.path.exists *)
  which : list entry -> string -> bool;          (* shutil.which(...) is not None *)
  run_reply : list entry -> string -> exn + Z * string;   (* subprocess.run *)
  check_call_reply : list entry -> list string -> exn + Z; (* subprocess.check_call *)
  can_import : list entry -> string -> bool;     (* import succeeds; ImportError otherwise *)
  sys_executable : string;                       (* sys.executable *)
  platform_release : string;                     (* platform.release() *)
  platform_machine : string;                     (* platform.machine() *)
  signal_names : string -> bool;                 (* the signal module has this name *)
  parse_args : Z + arguments;                    (* parser.parse_args(): exit code, or arguments *)
  makedirs_reply : list entry -> string -> option exn;    (* os.makedirs *)
  today : list entry -> string;                  (* datetime.now().strftime("%Y%m%d") *)
  log_file_reply : list entry -> string -> option exn     (* logging.FileHandler *)
}.

(** A call returns, raises, leaves the process through [exit], or is cut
    short by the fuel of an unbounded loop. *)
Inductive completion (A : Type) :=
| Returned (a : A)
| Raised (e : exn)
| Exited (code : Z)
| Unfinished.
Arguments Returned {A} a.
Arguments Raised {A} e.
Arguments Exited {A} code.
Arguments Unfinished {A}.

Definition H (A : Type) : Type := list entry -> completion A * list entry.

Definition hret {A} (a : A) : H A := fun l => (Returned a, l).

Definition hbind {A B} (c : H A) (k : A -> H B) : H B :=
  fun l =>
    match c l with
    | (Returned a, l') => k a l'
    | (Raised e, l') => (Raised e, l')
    | (Exited code, l') => (Exited code, l')
    | (Unfinished, l') => (Unfinished, l')
    end.

(** [exit(code)] *)
Definition hexit {A} (code : Z) : H A := fun l => (Exited code, l).

(** [try: c except ...:]; [exit] is not an exception the handlers of this
    program catch. *)
Definition htry {A} (c : H A) (handlers : exn -> option (H A)) : H A :=
  fun l =>
    match c l with
    | (Raised e, l') =>
        match handlers e with
        | Some handler => handler l'
        | None => (Raised e, l')
        end
    | r => r
    end.

(** The world a function of the rotation loop meets when it is called at
    the log [l].  Its history starts as the entries of the rotation loop in
    [l]; the world answers from [l] and what the function has added to its
    history since.  The three settings do not depend on [l]. *)
Definition world (hst : host) (l : list entry) : environment :=
  let log (h : history) := l ++ map Core (skipn (length (core_of l)) h) in
  {| STEM_AVAILABLE := stem_available hst;
     VERBOSE_MODE := verbose_mode hst;
     platform_system := system_name hst;
     http_reply := fun h rq => http hst (log h) rq;
     newnym_reply := fun h => newnym hst (log h);
     system_status := fun h cmd => exit_status hst (log h) cmd |}.

(** A function of the rotation loop runs on its entries of the log; what
    it appends to them is appended to the log. *)
Definition lift (hst : host) {A} (c : environment -> M A) : H A :=
  fun l =>
    let h := core_of l in
    match c (world hst l) h with
    | (o, h') =>
        (match o with
         | Ok a => Returned a
         | Raise e => Raised e
         | OutOfFuel => Unfinished
         end,
         l ++ map Core (skipn (length h) h'))
    end.

Definition say (n : notice) : H unit := fun l => (Returned tt, l ++ [Say n]).

Declare Scope host_scope.
Delimit Scope host_scope with host.
Notation "x <- c ;; k" := (hbind c (fun x => k))
  (at level 100, c at next level, right associativity) : host_scope.
Notation "c ;; k" := (hbind c (fun _ => k))
  (at level 100, right associativity) : host_scope.

Section Services.

Variable hst : host.

(** The settings of the world. *)
Let env := world hst [].

Local Open Scope host_scope.

(** [with Controller.from_port(port=...) as controller: controller.authenticate()] *)
Definition controller_authenticate (port : Z) : H unit :=
  fun l =>
    let out := controller_reply hst l in
    match out with
    | Some e => (Raised e, l ++ [ControllerAuth port out])
    | None => (Returned tt, l ++ [ControllerAuth port out])
    end.

(** [os.path.exists(path)] *)
Definition os_path_exists (path : string) : H bool :=
  fun l => (Returned (path_exists hst l path), l).

Definition is_tor_installed : H bool :=
  let os_type := get_os_type env in
  if String.eqb os_type "Linux" || String.eqb os_type "macOS" then
    r <- lift hst (fun w => check_output w "which tor") ;;
    match r with
    | Completed => hret true
    | CalledProcessError _ =>
        lift hst (fun w => verbose_print w "Tor executable not found in PATH.") ;;
        hret false
    end
  else if String.eqb os_type "Windows" then
    let program_files := default "C:\Program Files" (environ_get hst "PROGRAMFILES") in
    let tor_path_tb :=
      path_join hst program_files ["Tor Browser"; "Browser"; "TorBrowser"; "Tor"; "tor.exe"] in
    let tor_path_system := path_join hst program_files ["Tor"; "tor.exe"] in
    found_tb <- os_path_exists tor_path_tb ;;
    found <- (if found_tb then hret true else os_path_exists tor_path_system) ;;
    if found then
      lift hst (fun w => verbose_print w "Tor executable found in common Windows paths.") ;;
      hret true
    else
      lift hst (fun w => verbose_print w "Tor executable not found in common Windows paths.") ;;
      hret false
  else
    lift hst (fun w => verbose_print w ("Tor installation check failed for unknown OS type: " +:+ os_type)) ;;
    hret false.

Definition start_tor_service : H unit :=
  let os_type := get_os_type env in
  lift hst (fun w => verbose_print w ("Attempting to start Tor service on " +:+ os_type)) ;;
  if String.eqb os_type "Linux" then
    say SayStartLinux ;;
    _ <- lift hst (fun w => os_system w "sudo systemctl start tor") ;;
    hret tt
  else if String.eqb os_type "macOS" then
    say SayStartMacOS ;;
    _ <- lift hst (fun w => os_system w "brew services start tor") ;;
    hret tt
  else if String.eqb os_type "Windows" then
    say SayStartWindows
  else
    say SayStartUnsupported.

Definition stop_tor_service_gracefully : H unit :=
  let os_type := get_os_type env in
  lift hst (fun w => verbose_print w ("Attempting to stop Tor service gracefully on " +:+ os_type)) ;;
  (if STEM_AVAILABLE env then
     htry
       (controller_authenticate 9051 ;;
        lift hst (fun w => verbose_print w "Tor control port found, but using OS-specific stop command for service shutdown."))
       (fun e => Some (
          lift hst (fun w => verbose_print w ("Could not connect to Tor control port for graceful shutdown check: " +:+ exn_message e))))
   else hret tt) ;;
  if String.eqb os_type "Linux" then
    say SayStopLinux ;;
    _ <- lift hst (fun w => os_system w "sudo systemctl stop tor") ;;
    hret tt
  else if String.eqb os_type "macOS" then
    say SayStopMacOS ;;
    _ <- lift hst (fun w => os_system w "brew services stop tor") ;;
    hret tt
  else if String.eqb os_type "Windows" then
    say SayStopWindows
  else
    say SayStopUnsupported.

(** [os.system] is taken to return here as everywhere else, although the
    pattern of [pkill -f] also matches the command line of the tool
    itself. *)
Definition stop_services : H unit :=
  lift hst (fun w => verbose_print w "Stopping services...") ;;
  stop_tor_service_gracefully ;;
  _ <- lift hst (fun w => os_system w "pkill -f tornet > /dev/null 2>&1") ;;
  say SayServicesStopped.

(** [signal_handler(sig, frame)]; neither argument is used. *)
Definition signal_handler : H unit :=
  stop_services ;;
  say SayTerminated ;;
  hexit 0.

Definition google_request : request :=
  {| url := "http://www.google.com"; proxies := ∅; timeout := 3 |}.

(** The loop of [check_internet_connection] over the remaining tries, and
    what follows it. *)
Fixpoint check_internet_tries (tries : list Z) : H bool :=
  match tries with
  | [] =>
      say SayInternetGaveUp ;;
      hexit 1
  | _ :: rest =>
      lift hst (fun _ => sleep 1) ;;
      returned <- htry
        (_ <- lift hst (fun w => requests_get w google_request) ;;
         say SayInternetOk ;;
         hret (Some true))
        (fun e =>
           if is_RequestException e then Some (
             say SayInternetFailed ;;
             hret None)
           else None) ;;
      match returned with
      | Some result => hret result
      | None => check_internet_tries rest
      end
  end.

Definition check_internet_connection : H bool :=
  say SayCheckingInternet ;;
  check_internet_tries (range 0 3).

End Services.

(** ** utils.py *)

Section Utils.

Variable hst : host.

Local Open Scope host_scope.

(** [subprocess.run(command, shell=True, capture_output=True, text=True)] *)
Definition subprocess_run (command : string) : H (Z * string) :=
  fun l =>
    let out := run_reply hst l command in
    match out with
    | inl e => (Raised e, l ++ [Run command out])
    | inr result => (Returned result, l ++ [Run command out])
    end.

(** [description] is [None] by default; [None] and the empty string are
    falsy. *)
Definition run_command (command : string) (description : option string)
    (check_success : bool) : H bool :=
  (if truthy description then say (SayDoing (default "" description)) else hret tt) ;;
  htry
    (result <- subprocess_run command ;;
     if check_success && negb (fst result =? 0) then
       say (SayCommandFailed command) ;;
       say (SayCommandError (strip (snd result))) ;;
       hret false
     else hret true)
    (fun e => Some (
       say (SayCommandException command (exn_message e)) ;;
       hret false)).

Definition is_command_available (command : string) : H bool :=
  fun l => (Returned (which hst l command), l).

(** [import name] inside [try: ... except ImportError:]: did it succeed. *)
Definition import_module (name : string) : H bool :=
  fun l => (Returned (can_import hst l name), l).

(** The installers return from inside their branches: a branch gives
    [Some result] when it returns and [None] when it falls through to the
    last lines of the function. *)
Definition install_pip : H bool :=
  say SayCheckingPip ;;
  pip <- is_command_available "pip" ;;
  found <- (if pip then hret true else is_command_available "pip3") ;;
  if found then
    say SayPipPresent ;;
    hret true
  else
    let os_type := system_name hst in
    returned <-
      (if String.eqb os_type "Linux" then
         apt <- is_command_available "apt" ;;
         if apt then
           r <- run_command "sudo apt update && sudo apt install -y python3-pip"
                  (Some "Installing pip via apt") true ;;
           hret (Some r)
         else
           yum <- is_command_available "yum" ;;
           if yum then
             r <- run_command "sudo yum install -y python3-pip"
                    (Some "Installing pip via yum") true ;;
             hret (Some r)
           else
             dnf <- is_command_available "dnf" ;;
             if dnf then
               r <- run_command "sudo dnf install -y python3-pip"
                      (Some "Installing pip via dnf") true ;;
               hret (Some r)
             else
               pacman <- is_command_available "pacman" ;;
               if pacman then
                 r <- run_command "sudo pacman -S --noconfirm python-pip"
                        (Some "Installing pip via pacman") true ;;
                 hret (Some r)
               else hret None
       else if String.eqb os_type "Darwin" then
         brew <- is_command_available "brew" ;;
         if brew then
           r <- run_command "brew install python" (Some "Installing pip via Homebrew") true ;;
           hret (Some r)
         else
           say SayPipNeedsHomebrew ;;
           hret None
       else if String.eqb os_type "Windows" then
         say SayPipWindows ;;
         hret None
       else hret None) ;;
    match returned with
    | Some result => hret result
    | None =>
        say SayPipGaveUp ;;
        hret false
    end.

Definition install_requests : H bool :=
  say SayCheckingRequests ;;
  imported <- import_module "requests" ;;
  if imported then
    say SayRequestsPresent ;;
    hret true
  else
    say SayInstallingRequests ;;
    run_command (sys_executable hst +:+ " -m pip install requests")
      (Some "Installing requests via pip") true.

Definition install_stem : H bool :=
  say SayCheckingStem ;;
  imported <- import_module "stem" ;;
  if imported then
    say SayStemPresent ;;
    hret true
  else
    say SayInstallingStem ;;
    run_command (sys_executable hst +:+ " -m pip install stem")
      (Some "Installing stem via pip") true.

Definition install_tor : H bool :=
  say SayCheckingTor ;;
  tor <- is_command_available "tor" ;;
  if tor then
    say SayTorPresent ;;
    hret true
  else
    let os_type := system_name hst in
    returned <-
      (if String.eqb os_type "Linux" then
         apt <- is_command_available "apt" ;;
         if apt then
           r <- run_command "sudo apt update && sudo apt install -y tor"
                  (Some "Installing Tor via apt") true ;;
           hret (Some r)
         else
           yum <- is_command_available "yum" ;;
           if yum then
             r <- run_command "sudo yum install -y tor"
                    (Some "Installing Tor via yum") true ;;
             hret (Some r)
           else
             dnf <- is_command_available "dnf" ;;
             if dnf then
               r <- run_command "sudo dnf install -y tor"
                      (Some "Installing Tor via dnf") true ;;
               hret (Some r)
             else
               pacman <- is_command_available "pacman" ;;
               if pacman then
                 r <- run_command "sudo pacman -S --noconfirm tor"
                        (Some "Installing Tor via pacman") true ;;
                 hret (Some r)
               else hret None
       else if String.eqb os_type "Darwin" then
         brew <- is_command_available "brew" ;;
         if brew then
           r <- run_command "brew install tor" (Some "Installing Tor via Homebrew") true ;;
           hret (Some r)
         else
           say SayTorNeedsHomebrew ;;
           hret None
       else if String.eqb os_type "Windows" then
         say SayTorWindowsBrowser ;;
         say SayTorWindowsService ;;
         hret (Some false)
       else hret None) ;;
    match returned with
    | Some result => hret result
    | None =>
        say SayTorGaveUp ;;
        hret false
    end.

End Utils.

(** ** banner.py *)

Definition print_banner : H unit := say SayBanner.

(** ** Setting up, repairing, [main] *)

Definition TOOL_NAME : string := "tornet".

Section Setup.

Variable hst : host.

(** The settings of the world. *)
Let env := world hst [].

Local Open Scope host_scope.

Definition configure_browser_for_tor : H unit :=
  let os_type := get_os_type env in
  say SayBrowserNeeded ;;
  say SayBrowserGuidance ;;
  (if String.eqb os_type "Windows" then
     say (SayBrowserManualProxy "Windows") ;;
     say (SayBrowserTorBrowser "Windows")
   else if String.eqb os_type "macOS" then
     say (SayBrowserManualProxy "macOS") ;;
     say (SayBrowserSystemProxy "macOS") ;;
     say (SayBrowserTorBrowser "macOS")
   else if String.eqb os_type "Linux" then
     say (SayBrowserManualProxy "Linux") ;;
     say (SayBrowserSystemProxy "Linux") ;;
     say (SayBrowserTorBrowser "Linux")
   else
     say SayBrowserGeneral) ;;
  say SayBrowserRevert.

Definition print_start_message : H unit :=
  say SayTorStarted ;;
  say (SayCurrentOS (system_name hst) (platform_release hst) (platform_machine hst)).

Definition initialize_environment : H unit :=
  lift hst (fun w => verbose_print w "Initializing environment...") ;;
  _ <- install_pip hst ;;
  _ <- install_requests hst ;;
  _ <- install_stem hst ;;
  _ <- install_tor hst ;;
  start_tor_service hst ;;
  print_start_message ;;
  configure_browser_for_tor.

(** [subprocess.check_call(args)]: [CalledProcessError] for a status other
    than 0; the process may also fail to start. *)
Definition check_call (args : list string) : H process_result :=
  fun l =>
    let out := check_call_reply hst l args in
    match out with
    | inl e => (Raised e, l ++ [CheckCall args out])
    | inr st =>
        (Returned (if st =? 0 then Completed else CalledProcessError st),
         l ++ [CheckCall args out])
    end.

Definition auto_fix : H unit :=
  lift hst (fun w => verbose_print w "Running auto-fix...") ;;
  _ <- install_pip hst ;;
  _ <- install_requests hst ;;
  _ <- install_stem hst ;;
  _ <- install_tor hst ;;
  say SayAssumingPackage ;;
  r <- check_call [sys_executable hst; "-m"; "pip"; "install"; "--upgrade"; TOOL_NAME] ;;
  match r with
  | Completed => hret tt
  | CalledProcessError _ => say SayUpgradeFailed
  end.

(** [os.makedirs(path, exist_ok=True)] *)
Definition makedirs (path : string) : H unit :=
  fun l =>
    let out := makedirs_reply hst l path in
    match out with
    | Some e => (Raised e, l ++ [MakeDirs path out])
    | None => (Returned tt, l ++ [MakeDirs path out])
    end.

(** [logging.FileHandler(path)] opens the file. *)
Definition file_handler (path : string) : H unit :=
  fun l =>
    let out := log_file_reply hst l path in
    match out with
    | Some e => (Raised e, l ++ [LogFile path out])
    | None => (Returned tt, l ++ [LogFile path out])
    end.

(** The level is [DEBUG] and the console handler is there exactly when
    [verbose]. *)
Definition setup_logging (verbose : bool) : H unit :=
  makedirs "logs" ;;
  date <- (fun l => (Returned (today hst l), l)) ;;
  file_handler ("logs/tornet_" +:+ date +:+ ".log") ;;
  fun l => (Returned tt, l ++ [BasicConfig verbose verbose]).

(** [signal.<name>] *)
Definition signal_attribute (name : string) : H string :=
  fun l =>
    if signal_names hst name then (Returned name, l)
    else (Raised (Exception ("module 'signal' has no attribute '" +:+ name +:+ "'")), l).

(** [signal.signal(signum, signal_handler)] *)
Definition signal_signal (signum : string) : H unit :=
  fun l => (Returned tt, l ++ [Signal signum]).

End Setup.

(** [VERBOSE_MODE = args.verbose]: what follows runs in the world with the
    flag set. *)
Definition with_verbose (verbose : bool) (hst : host) : host :=
  {| stem_available := stem_available hst;
     verbose_mode := verbose;
     system_name := system_name hst;
     http := http hst;
     newnym := newnym hst;
     exit_status := exit_status hst;
     controller_reply := controller_reply hst;
     environ_get := environ_get hst;
     path_join := path_join hst;
     path_exists := path_exists hst;
     which := which hst;
     run_reply := run_reply hst;
     check_call_reply := check_call_reply hst;
     can_import := can_import hst;
     sys_executable := sys_executable hst;
     platform_release := platform_release hst;
     platform_machine := platform_machine hst;
     signal_names := signal_names hst;
     parse_args := parse_args hst;
     makedirs_reply := makedirs_reply hst;
     today := today hst;
     log_file_reply := log_file_reply hst |}.

(** [main()].  The two handlers are registered before the command line is
    read; [fuel] bounds the loop of [change_ip_repeatedly] when [count] is
    0.  The [return]s of the flags are the branches of the conditionals. *)
Definition main (hst : host) (fuel : nat) : H unit :=
  (sigint <- signal_attribute hst "SIGINT" ;;
   signal_signal sigint ;;
   sigquit <- signal_attribute hst "SIGQUIT" ;;
   signal_signal sigquit ;;
   args <- (fun l => match parse_args hst with
                     | inl code => (Exited code, l)
                     | inr a => (Returned a, l)
                     end) ;;
   let hst := with_verbose (args_verbose args) hst in
   setup_logging hst (args_verbose args) ;;
   (fun l => (Returned tt, l ++ [LogInfo "Starting Tornet v2.1.0"])) ;;
   if args_ip args then
     ip <- lift hst ma_ip ;;
     if truthy ip then lift hst (fun w => print_ip w ip) else hret tt
   else
     installed <- is_tor_installed hst ;;
     if negb installed then say SayTorMissing
     else if args_auto_fix args then
       auto_fix hst ;;
       say SayAutoFixComplete
     else if args_stop args then stop_services hst
     else
       _ <- check_internet_connection hst ;;
       print_banner ;;
       initialize_environment hst ;;
       lift hst (fun w => change_ip_repeatedly w fuel (args_interval args) (args_count args)))%host.

(** The start of [main] goes through: the [signal] module has both
    names, the command line parses to [a], and the log file can be
    opened. *)
Definition starts (hst : host) (a : arguments) : Prop :=
  signal_names hst "SIGINT" = true
  /\ signal_names hst "SIGQUIT" = true
  /\ parse_args hst = inr a
  /\ (forall l path, makedirs_reply hst l path = None)
  /\ (forall l path, log_file_reply hst l path = None).

(** Whenever it is asked under the flags [a], [is_tor_installed] answers
    [found]. *)
Definition tor_found (found : bool) (hst : host) (a : arguments) : Prop :=
  forall l,
    fst (is_tor_installed (with_verbose (args_verbose a) hst) l) = Returned found.

(** * Reading the log *)

(** ** What the log of a call shows *)

Fixpoint count (p : event -> bool) (t : list event) : nat :=
  match t with
  | [] => 0
  | e :: t' => (if p e then 1 else 0) + count p t'
  end%nat.

Definition is_attempt (e : event) : bool :=
  match e with EvPrint (MsgAttempt _ _) => true | _ => false end.

Definition is_newnym (e : event) : bool :=
  match e with EvNewnym _ _ => true | _ => false end.

Definition is_newnym_failure (e : event) : bool :=
  match e with EvNewnym _ (Some _) => true | _ => false end.

Definition is_newnym_sent (e : event) : bool :=
  match e with EvNewnym _ None => true | _ => false end.

Definition is_log (line : string) (e : event) : bool :=
  match e with EvLogDebug s => String.eqb s line | _ => false end.

(** One of these notices opens every run of [reload_tor_service]. *)
Definition is_reload_notice (e : event) : bool :=
  match e with
  | EvPrint MsgReloadLinux | EvPrint MsgReloadMacOS
  | EvPrint MsgReloadWindowsManual | EvPrint MsgReloadUnsupported => true
  | _ => false
  end.

(** Rotation attempts announced, calls of [change_ip], uses of the control
    port (all, failed, successful) and calls of [reload_tor_service]. *)
Definition attempts (t : list event) : nat := count is_attempt t.
Definition change_ip_calls (t : list event) : nat :=
  count (is_log "Attempting to change IP.") t.
Definition newnym_tries (t : list event) : nat := count is_newnym t.
Definition newnym_failures (t : list event) : nat := count is_newnym_failure t.
Definition newnym_sent (t : list event) : nat := count is_newnym_sent t.
Definition reload_calls (t : list event) : nat := count is_reload_notice t.

(** What a probe makes of the world's answer. *)
Definition probe_value (out : http_outcome) : ip_result :=
  match out with
  | inl _ => None
  | inr r => if error_status r then None else Some (strip (text r))
  end.

(** The results of the probes through Tor, oldest first. *)
Fixpoint tor_probes (t : list event) : list ip_result :=
  match t with
  | [] => []
  | EvHttpGet rq out :: t' =>
      if bool_decide (rq = tor_request) then probe_value out :: tor_probes t'
      else tor_probes t'
  | _ :: t' => tor_probes t'
  end.

(** Every request of the log with its answer. *)
Fixpoint http_requests (t : list event) : list (request * http_outcome) :=
  match t with
  | [] => []
  | EvHttpGet rq out :: t' => (rq, out) :: http_requests t'
  | _ :: t' => http_requests t'
  end.

(** ** More readings of the log *)

(** The shell commands of the log, oldest first. *)
Fixpoint commands (t : list event) : list string :=
  match t with
  | [] => []
  | EvSystem cmd _ :: t' => cmd :: commands t'
  | _ :: t' => commands t'
  end.

(** The pauses of the log, oldest first. *)
Fixpoint sleeps (t : list event) : list Z :=
  match t with
  | [] => []
  | EvSleep secs :: t' => secs :: sleeps t'
  | _ :: t' => sleeps t'
  end.

Definition is_success (e : event) : bool :=
  match e with EvPrint MsgSuccess => true | _ => false end.

Definition is_report (e : event) : bool :=
  match e with EvPrint (MsgIpChanged _ _) => true | _ => false end.

(** A request sent without any proxy. *)
Definition is_direct_request (e : event) : bool :=
  match e with EvHttpGet rq _ => bool_decide (proxies rq = ∅) | _ => false end.

(** Success notices, reports of a new address, requests that bypass Tor. *)
Definition successes (t : list event) : nat := count is_success t.
Definition reports (t : list event) : nat := count is_report t.
Definition direct_requests (t : list event) : nat := count is_direct_request t.

(** Every request of the log is the probe through the Tor proxy. *)
Definition all_through_tor (t : list event) : Prop :=
  Forall (fun q : request * http_outcome => fst q = tor_request) (http_requests t).

(** A string of whitespace only. *)
Fixpoint blank (s : string) : bool :=
  match s with
  | EmptyString => true
  | String c s' => isspace c && blank s'
  end.

(** The lines of the service functions in a log, and the connections to
    the control port they opened. *)
Fixpoint notices (l : list entry) : list notice :=
  match l with
  | [] => []
  | Say n :: l' => n :: notices l'
  | _ :: l' => notices l'
  end.

(** The commands handed to [subprocess.run] with what became of them,
    and the argument lists handed to [subprocess.check_call]. *)
Fixpoint runs (l : list entry) : list (string * (exn + Z * string)) :=
  match l with
  | [] => []
  | Run command out :: l' => (command, out) :: runs l'
  | _ :: l' => runs l'
  end.

Fixpoint check_calls (l : list entry) : list (list string) :=
  match l with
  | [] => []
  | CheckCall args _ :: l' => args :: check_calls l'
  | _ :: l' => check_calls l'
  end.

Fixpoint control_port_uses (l : list entry) : list (Z * option exn) :=
  match l with
  | [] => []
  | ControllerAuth port out :: l' => (port, out) :: control_port_uses l'
  | _ :: l' => control_port_uses l'
  end.

(** The package managers [install_tor] and [install_pip] try on each
    system, in this order, each with the command it stands for. *)
Definition tor_installers (system : string) : list (string * string) :=
  if String.eqb system "Linux" then
    [("apt", "sudo apt update && sudo apt install -y tor");
     ("yum", "sudo yum install -y tor");
     ("dnf", "sudo dnf install -y tor");
     ("pacman", "sudo pacman -S --noconfirm tor")]
  else if String.eqb system "Darwin" then [("brew", "brew install tor")]
  else [].

Definition pip_installers (system : string) : list (string * string) :=
  if String.eqb system "Linux" then
    [("apt", "sudo apt update && sudo apt install -y python3-pip");
     ("yum", "sudo yum install -y python3-pip");
     ("dnf", "sudo dnf install -y python3-pip");
     ("pacman", "sudo pacman -S --noconfirm python-pip")]
  else if String.eqb system "Darwin" then [("brew", "brew install python")]
  else [].

(** The command of the first package manager that is there. *)
Definition first_available (available : string -> bool)
    (installers : list (string * string)) : list string :=
  match List.find (fun i => available (fst i)) installers with
  | Some i => [snd i]
  | None => []
  end.

(** A command run by [run_command] with [check_success] counts as done
    when it returned with status 0. *)
Definition succeeded (out : exn + Z * string) : bool :=
  match out with
  | inl _ => false
  | inr (returncode, _) => returncode =? 0
  end.

(** The command a service action runs on each system: one on Linux, one
    on macOS, none elsewhere. *)
Definition platform_commands (os_type linux macos : string) : list string :=
  if String.eqb os_type "Linux" then [linux]
  else if String.eqb os_type "macOS" then [macos]
  else [].

(** ** The verdict of the retry loop, as the specification words it *)

(** An attempt succeeds when its candidate is present and differs from the
    comparison value. *)
Definition attempt_succeeds (previous candidate : ip_result) : bool :=
  truthy candidate && negb (ip_eqb candidate previous).

(** After a failed attempt the comparison value becomes the candidate, when
    there is one. *)
Definition next_previous (previous candidate : ip_result) : ip_result :=
  if truthy candidate then candidate else previous.




(** ** Worlds with scripted answers *)

(** A successful reply with the given body. *)
Definition plain_reply (body : string) : http_outcome :=
  inr {| status_code := 200; text := body; json := None |}.

(** A world that answers the successive probes through Tor with [probes]
    (a timeout once they are used up), every other request with [other],
    and the successive uses of the control port with [control] (a refused
    connection once they are used up); every command exits with status 0. *)
Definition scripted (stem : bool) (system : string) (probes : list http_outcome)
    (other : http_outcome) (control : list (option exn)) : environment :=
  {| STEM_AVAILABLE := stem;
     VERBOSE_MODE := false;
     platform_system := system;
     http_reply := fun h rq =>
       if bool_decide (rq = tor_request)
       then List.nth (length (tor_probes h)) probes (inl (Timeout "timed out"))
       else other;
     newnym_reply := fun h =>
       List.nth (newnym_tries h) control (Some (Exception "connection refused"));
     system_status := fun _ _ => 0 |}.

Definition iceland : http_outcome :=
  inr {| status_code := 200; text := "{...}";
         json := Some {[ "country_name" := "Iceland" ]} |}.

(** The address never changes. *)
Definition stuck_world : environment :=
  scripted true "Linux"
    [plain_reply "1.2.3.4"; plain_reply "1.2.3.4"; plain_reply "1.2.3.4"; plain_reply "1.2.3.4"]
    iceland [None; None; None].

(** The address changes at the second attempt; the control port refuses
    the first signal and accepts the second. *)
Definition second_attempt_world : environment :=
  scripted true "Linux"
    [plain_reply "1.2.3.4"; plain_reply "1.2.3.4"; plain_reply "5.6.7.8"]
    iceland [Some (Exception "authentication failed"); None].

(** No request gets through: every probe through Tor times out, every
    other request finds the network unreachable. *)
Definition offline_world : environment :=
  scripted false "Windows" [] (inl (ConnectionError "network unreachable")) [].


(** Reloads only: [stem] is missing. *)
Definition reload_only_world : environment :=
  scripted false "Linux" [plain_reply "1.2.3.4"; plain_reply "5.6.7.8"] iceland [].

(** The first probe gets a body of spaces. *)
Definition blank_world : environment :=
  scripted true "Linux" [plain_reply "  "; plain_reply "5.6.7.8"] iceland [None].

(** A Linux system with Tor and without network. *)
Definition unplugged_world : environment :=
  scripted true "Linux" [] (inl (ConnectionError "network unreachable")) [].

(** A Linux system without network where [which tor] finds nothing. *)
Definition bare_world : environment :=
  {| STEM_AVAILABLE := false;
     VERBOSE_MODE := false;
     platform_system := "Linux";
     http_reply := fun _ _ => inl (ConnectionError "unreachable");
     newnym_reply := fun _ => Some (Exception "connection refused");
     system_status := fun _ cmd => if String.eqb cmd "which tor" then 1 else 0 |}.

(** ** Hosts with scripted answers *)

(** The host around a world of the rotation loop, which answers from its
    own entries of the log.  The control port refuses connections; no
    environment variable is set and no file exists; every program is on
    the path, every process ends with status 0 and both libraries can be
    imported; the [signal] module has the names [signals] accepts; the
    command line parses to [a]; the log file can be opened. *)
Definition host_of (w : environment) (signals : string -> bool) (a : arguments)
  : host :=
  {| stem_available := STEM_AVAILABLE w;
     verbose_mode := VERBOSE_MODE w;
     system_name := platform_system w;
     http := fun l rq => http_reply w (core_of l) rq;
     newnym := fun l => newnym_reply w (core_of l);
     exit_status := fun l cmd => system_status w (core_of l) cmd;
     controller_reply := fun _ => Some (Exception "connection refused");
     environ_get := fun _ => None;
     path_join := fun first rest => fold_left (fun p q => p +:+ "/" +:+ q) rest first;
     path_exists := fun _ _ => false;
     which := fun _ _ => true;
     run_reply := fun _ _ => inr (0, "");
     check_call_reply := fun _ _ => inr 0;
     can_import := fun _ _ => true;
     sys_executable := "/usr/bin/python3";
     platform_release := "6.1.0";
     platform_machine := "x86_64";
     signal_names := signals;
     parse_args := inr a;
     makedirs_reply := fun _ _ => None;
     today := fun _ => "20240101";
     log_file_reply := fun _ _ => None |}.

(** The command line with the default interval and count. *)
Definition flags (ip auto_fix stop : bool) : arguments :=
  {| args_interval := 60;
     args_count := 10;
     args_ip := ip;
     args_auto_fix := auto_fix;
     args_stop := stop;
     args_verbose := false |}.

(** A Unix system, and one whose [signal] module has no [SIGQUIT]. *)
Definition unix_signals (name : string) : bool := true.

Definition windows_signals (name : string) : bool :=
  negb (String.eqb name "SIGQUIT").

(** * What each function does to the log *)

Section Runs.

Variable env : environment.

(** ** The traces, written out *)

Definition verbose_trace (s : string) : list event :=
  (if VERBOSE_MODE env then [EvPrint (MsgDebug s)] else []) ++ [EvLogDebug s].

(** The answer to the request [ma_ip_tor] sends when it is called at [h]. *)
Definition tor_reply (h : history) : http_outcome :=
  http_reply env (h ++ verbose_trace "Fetching IP via Tor proxy.") tor_request.

Definition tor_report (out : http_outcome) : list event :=
  match out with
  | inl (Timeout _) =>
      EvPrint MsgTorTimeout :: verbose_trace "Tor IP fetch timed out."
  | inl e =>
      EvPrint (MsgTorTrouble (exn_message (RequestException e)))
      :: verbose_trace ("Error fetching IP via Tor: "
                        +:+ exn_message (RequestException e))
  | inr r =>
      if error_status r then
        EvPrint (MsgTorTrouble "HTTP error status")
        :: verbose_trace "Error fetching IP via Tor: HTTP error status"
      else []
  end.

Definition tor_probe_trace (h : history) : list event :=
  verbose_trace "Fetching IP via Tor proxy."
  ++ EvHttpGet tor_request (tor_reply h) :: tor_report (tor_reply h).

Definition normal_reply (h : history) : http_outcome :=
  http_reply env (h ++ verbose_trace "Fetching normal IP.") normal_request.

Definition normal_report (out : http_outcome) : list event :=
  match out with
  | inl (Timeout _) =>
      EvPrint MsgNormalTimeout :: verbose_trace "Normal IP fetch timed out."
  | inl e =>
      EvPrint (MsgNormalTrouble (exn_message (RequestException e)))
      :: verbose_trace ("Error fetching normal IP: "
                        +:+ exn_message (RequestException e))
  | inr r =>
      if error_status r then
        EvPrint (MsgNormalTrouble "HTTP error status")
        :: verbose_trace "Error fetching normal IP: HTTP error status"
      else []
  end.

Definition normal_probe_trace (h : history) : list event :=
  verbose_trace "Fetching normal IP."
  ++ EvHttpGet normal_request (normal_reply h) :: normal_report (normal_reply h).

(** The answer of the control port when [change_ip_via_control_port] is
    called at [h]. *)
Definition newnym_at (h : history) : option exn :=
  newnym_reply env (h ++ verbose_trace "Attempting IP change via Tor control port.").

Definition control_port_value (h : history) : bool :=
  STEM_AVAILABLE env && match newnym_at h with None => true | Some _ => false end.

Definition control_port_trace (h : history) : list event :=
  verbose_trace "Attempting IP change via Tor control port."
  ++ (if STEM_AVAILABLE env then
        EvNewnym 9051 (newnym_at h)
        :: match newnym_at h with
           | None => [EvPrint MsgNewnymSent]
           | Some e =>
               verbose_trace ("Error sending NEWNYM signal: " +:+ exn_message e)
               ++ [EvPrint (MsgNewnymFailed (exn_message e))]
           end
      else verbose_trace "stem library not available, cannot use control port.").

Definition reload_trace (h : history) : list event :=
  let entry := verbose_trace ("Attempting to reload Tor service on " +:+ get_os_type env) in
  entry
  ++ (if String.eqb (get_os_type env) "Linux" then
        [EvPrint MsgReloadLinux;
         EvSystem "sudo systemctl reload tor"
           (system_status env (h ++ entry ++ [EvPrint MsgReloadLinux])
              "sudo systemctl reload tor")]
      else if String.eqb (get_os_type env) "macOS" then
        [EvPrint MsgReloadMacOS;
         EvSystem "brew services restart tor"
           (system_status env (h ++ entry ++ [EvPrint MsgReloadMacOS])
              "brew services restart tor")]
      else if String.eqb (get_os_type env) "Windows" then
        [EvPrint MsgReloadWindowsManual; EvPrint MsgReloadWindowsCannot]
      else [EvPrint MsgReloadUnsupported]).

Definition rotate_trace (h : history) : list event :=
  if STEM_AVAILABLE env then
    control_port_trace h
    ++ (if control_port_value h then [] else reload_trace (h ++ control_port_trace h))
  else reload_trace h.

(** Geolocation. *)








(** One attempt of [change_ip]. *)

(** Everything an attempt logs before its probe. *)
Definition attempt_prefix (attempt max_retries ip_check_interval : Z) (h : history)
  : list event :=
  EvPrint (MsgAttempt attempt max_retries)
  :: rotate_trace (h ++ [EvPrint (MsgAttempt attempt max_retries)])
  ++ [EvSleep ip_check_interval].

(** The candidate of an attempt started at [h]. *)
Definition candidate_at (attempt max_retries ip_check_interval : Z) (h : history)
  : ip_result :=
  probe_value (tor_reply (h ++ attempt_prefix attempt max_retries ip_check_interval h)).

(** The log of an attempt up to and including its probe. *)
Definition attempt_trace (attempt max_retries ip_check_interval : Z) (h : history)
  : list event :=
  attempt_prefix attempt max_retries ip_check_interval h
  ++ tor_probe_trace (h ++ attempt_prefix attempt max_retries ip_check_interval h).

(** The warning of a failed attempt. *)
Definition warning (attempt : Z) (previous candidate : ip_result) : event :=
  EvPrint (if truthy candidate && ip_eqb candidate previous
           then MsgUnchanged attempt else MsgNoNewIp attempt).


Definition baseline_ip (h : history) : ip_result :=
  probe_value (tor_reply (h ++ verbose_trace "Attempting to change IP.")).

(** The log of [change_ip] before its loop. *)
Definition baseline_trace (h : history) : list event :=
  verbose_trace "Attempting to change IP."
  ++ tor_probe_trace (h ++ verbose_trace "Attempting to change IP.")
  ++ (if truthy (baseline_ip h) then [] else [EvPrint MsgNoBaseline]).

(** ** The retry loop as a relation

    [attempts_run m s l cur h r t]: started at [h] with comparison value
    [cur], the loop over the attempt numbers [l] logs [t] and yields [r]. *)
Inductive attempts_run (m s : Z)
  : list Z -> ip_result -> history -> ip_result -> list event -> Prop :=
| run_exhausted cur h :
    attempts_run m s [] cur h None [EvPrint (MsgFailedAfter m)]
| run_success a rest cur h :
    attempt_succeeds cur (candidate_at a m s h) = true ->
    attempts_run m s (a :: rest) cur h (candidate_at a m s h)
      (attempt_trace a m s h ++ [EvPrint MsgSuccess])
| run_retry a rest cur h r t :
    attempt_succeeds cur (candidate_at a m s h) = false ->
    attempts_run m s rest (next_previous cur (candidate_at a m s h))
      (h ++ attempt_trace a m s h ++ [warning a cur (candidate_at a m s h)]) r t ->
    attempts_run m s (a :: rest) cur h r
      (attempt_trace a m s h ++ warning a cur (candidate_at a m s h) :: t).


(** The scheduling loop. *)




(** ** Lists of events and verdicts *)

Lemma count_app p t1 t2 : count p (t1 ++ t2) = (count p t1 + count p t2)%nat.
Proof.
  induction t1 as [|e t1 IH]; [reflexivity|].
  cbn [app count]. rewrite IH. lia.
Qed.

Lemma tor_probes_app t1 t2 : tor_probes (t1 ++ t2) = tor_probes t1 ++ tor_probes t2.
Proof.
  induction t1 as [|e t1 IH]; [reflexivity|].
  destruct e; cbn [app tor_probes]; try exact IH.
  destruct (bool_decide (rq = tor_request)); [|exact IH].
  now rewrite IH.
Qed.

Lemma ip_eqb_eq a b : ip_eqb a b = true <-> a = b.
Proof.
  destruct a as [x|], b as [y|]; cbn [ip_eqb]; split; intros H;
    try discriminate; try reflexivity.
  - apply String.eqb_eq in H. now subst.
  - injection H as ->. apply String.eqb_refl.
Qed.

Lemma truthy_spec v : truthy v = true <-> exists ip, v = Some ip /\ ip <> "".
Proof.
  destruct v as [x|]; cbn [truthy]; split.
  - intros H. exists x. split; [reflexivity|].
    intros ->. discriminate H.
  - intros (ip & [= ->] & Hne). destruct (String.eqb ip "") eqn:E; [|reflexivity].
    now apply String.eqb_eq in E.
  - discriminate.
  - now intros (ip & [=] & _).
Qed.

Lemma attempt_succeeds_spec previous candidate :
  attempt_succeeds previous candidate = true
  <-> exists ip, candidate = Some ip /\ ip <> "" /\ previous <> Some ip.
Proof.
  unfold attempt_succeeds. rewrite andb_true_iff, negb_true_iff, truthy_spec. split.
  - intros ((ip & -> & Hne) & Hd). exists ip. repeat split; [assumption|].
    intros ->. rewrite (proj2 (ip_eqb_eq _ _) eq_refl) in Hd. discriminate.
  - intros (ip & -> & Hne & Hd). split; [now exists ip|].
    destruct (ip_eqb (Some ip) previous) eqn:E; [|reflexivity].
    apply ip_eqb_eq in E. now subst.
Qed.








(** ** The calls *)

Lemma verbose_print_run s h :
  verbose_print env s h = (Ok tt, h ++ verbose_trace s).
Proof.
  unfold verbose_print, verbose_trace, bind, print, emit, ret.
  destruct (VERBOSE_MODE env); cbn [app]; [|reflexivity].
  now rewrite <- app_assoc.
Qed.

Lemma bind_run {A B} (c : M A) (k : A -> M B) h a h' :
  c h = (Ok a, h') -> bind c k h = k a h'.
Proof. intros H. unfold bind. now rewrite H. Qed.

Lemma bind_raise {A B} (c : M A) (k : A -> M B) h e h' :
  c h = (Raise e, h') -> bind c k h = (Raise e, h').
Proof. intros H. unfold bind. now rewrite H. Qed.

Lemma print_run m h : print m h = (Ok tt, h ++ [EvPrint m]).
Proof. reflexivity. Qed.

Lemma sleep_run secs h : 0 <= secs -> sleep secs h = (Ok tt, h ++ [EvSleep secs]).
Proof.
  intros H. unfold sleep. destruct (secs <? 0) eqn:E; [lia|reflexivity].
Qed.

Lemma sleep_negative secs h :
  secs < 0 -> sleep secs h = (Raise (ValueError "sleep length must be non-negative"), h).
Proof.
  intros H. unfold sleep. destruct (secs <? 0) eqn:E; [reflexivity|lia].
Qed.

Lemma raise_for_status_ok r h :
  error_status r = false -> raise_for_status r h = (Ok tt, h).
Proof. intros E. unfold raise_for_status. now rewrite E. Qed.

Lemma raise_for_status_error r h :
  error_status r = true ->
  raise_for_status r h = (Raise (RequestException (HTTPError "HTTP error status")), h).
Proof. intros E. unfold raise_for_status. now rewrite E. Qed.

Lemma response_json_some r data h :
  json r = Some data -> response_json r h = (Ok data, h).
Proof. intros E. unfold response_json. now rewrite E. Qed.

Lemma response_json_none r h :
  json r = None ->
  response_json r h = (Raise (RequestException (JSONDecodeError "Expecting value")), h).
Proof. intros E. unfold response_json. now rewrite E. Qed.

(** Stepping through a sequence of calls whose outcome is known. *)
Ltac run :=
  repeat first
    [ erewrite bind_run by (apply print_run)
    | erewrite bind_run by (apply verbose_print_run)
    | erewrite bind_run by (apply sleep_run; assumption)
    | erewrite bind_run by (apply raise_for_status_ok; assumption)
    | erewrite bind_raise by (apply raise_for_status_error; assumption)
    | erewrite bind_run by (apply response_json_some; eassumption)
    | erewrite bind_raise by (apply response_json_none; assumption) ].

Ltac norm := repeat first [rewrite <- app_assoc | progress cbn [app]].
Ltac finish := unfold ret; norm; reflexivity.

Lemma ma_ip_tor_run h :
  ma_ip_tor env h = (Ok (probe_value (tor_reply h)), h ++ tor_probe_trace h).
Proof.
  unfold ma_ip_tor, try_except, tor_probe_trace.
  run. unfold bind at 1, requests_get. fold (tor_reply h).
  destruct (tor_reply h) as [e|r]; cbn [probe_value tor_report].
  - destruct e; cbn [is_Timeout is_RequestException]; run; finish.
  - destruct (error_status r) eqn:E; run.
    + cbn [is_Timeout is_RequestException]. run. finish.
    + finish.
Qed.

Lemma ma_ip_normal_run h :
  ma_ip_normal env h = (Ok (probe_value (normal_reply h)), h ++ normal_probe_trace h).
Proof.
  unfold ma_ip_normal, try_except, normal_probe_trace.
  run. unfold bind at 1, requests_get. fold (normal_reply h).
  destruct (normal_reply h) as [e|r]; cbn [probe_value normal_report].
  - destruct e; cbn [is_Timeout is_RequestException]; run; finish.
  - destruct (error_status r) eqn:E; run.
    + cbn [is_Timeout is_RequestException]. run. finish.
    + finish.
Qed.

Lemma change_ip_via_control_port_run h :
  change_ip_via_control_port env h = (Ok (control_port_value h), h ++ control_port_trace h).
Proof.
  unfold change_ip_via_control_port, control_port_value, control_port_trace.
  run. destruct (STEM_AVAILABLE env); cbn [negb andb].
  - unfold try_except, bind at 1, controller_newnym. fold (newnym_at h).
    destruct (newnym_at h) as [e|]; run; finish.
  - run. finish.
Qed.

Lemma get_os_type_cases :
  get_os_type env = "Linux" \/ get_os_type env = "macOS"
  \/ get_os_type env = "Windows" \/ get_os_type env = "Unknown".
Proof.
  unfold get_os_type.
  destruct (String.eqb (platform_system env) "Linux"); [now left|].
  destruct (String.eqb (platform_system env) "Darwin"); [now right; left|].
  destruct (String.eqb (platform_system env) "Windows"); [now right; right; left|].
  now right; right; right.
Qed.

Lemma reload_tor_service_run h :
  reload_tor_service env h = (Ok PyNone, h ++ reload_trace h).
Proof.
  unfold reload_tor_service, reload_trace. run.
  destruct get_os_type_cases as [E|[E|[E|E]]]; rewrite E;
    cbn [String.eqb Ascii.eqb Bool.eqb]; cbv iota.
  - rewrite (bind_run _ _ (h ++ _) tt
               ((h ++ verbose_trace "Attempting to reload Tor service on Linux")
                ++ [EvPrint MsgReloadLinux; EvSystem "sudo systemctl reload tor"
                      (system_status env
                         (h ++ verbose_trace "Attempting to reload Tor service on Linux"
                          ++ [EvPrint MsgReloadLinux]) "sudo systemctl reload tor")])).
    + finish.
    + run. unfold bind, os_system, ret. rewrite <- !app_assoc. reflexivity.
  - rewrite (bind_run _ _ (h ++ _) tt
               ((h ++ verbose_trace "Attempting to reload Tor service on macOS")
                ++ [EvPrint MsgReloadMacOS; EvSystem "brew services restart tor"
                      (system_status env
                         (h ++ verbose_trace "Attempting to reload Tor service on macOS"
                          ++ [EvPrint MsgReloadMacOS]) "brew services restart tor")])).
    + finish.
    + run. unfold bind, os_system, ret. rewrite <- !app_assoc. reflexivity.
  - run. finish.
  - run. finish.
Qed.

Lemma rotate_run h : rotate env h = (Ok tt, h ++ rotate_trace h).
Proof.
  unfold rotate, rotate_trace. destruct (STEM_AVAILABLE env).
  - rewrite (bind_run _ _ _ _ _ (change_ip_via_control_port_run h)).
    destruct (control_port_value h).
    + unfold ret. now rewrite app_nil_r.
    + rewrite (bind_run _ _ _ _ _ (reload_tor_service_run _)). finish.
  - unfold ret at 1. unfold bind at 1.
    rewrite (bind_run _ _ _ _ _ (reload_tor_service_run _)). finish.
Qed.



Lemma change_ip_attempts_cons a rest m s cur h :
  0 <= s ->
  change_ip_attempts env (a :: rest) m s cur h =
    let new_ip := candidate_at a m s h in
    if attempt_succeeds cur new_ip then
      (Ok new_ip, h ++ attempt_trace a m s h ++ [EvPrint MsgSuccess])
    else
      change_ip_attempts env rest m s (next_previous cur new_ip)
        (h ++ attempt_trace a m s h ++ [warning a cur new_ip]).
Proof.
  intros Hs. cbn [change_ip_attempts]. run.
  rewrite (bind_run _ _ _ _ _ (rotate_run _)). run.
  rewrite (bind_run _ _ _ _ _ (ma_ip_tor_run _)).
  unfold candidate_at, attempt_trace, attempt_prefix, attempt_succeeds,
    next_previous, warning.
  cbn zeta. norm.
  set (new_ip := probe_value _).
  destruct (truthy new_ip && negb (ip_eqb new_ip cur)).
  - run. finish.
  - destruct (truthy new_ip && ip_eqb new_ip cur); run; norm; reflexivity.
Qed.


Lemma change_ip_run m s h :
  change_ip env m s h
  = change_ip_attempts env (range 1 (m + 1)) m s (baseline_ip h) (h ++ baseline_trace h).
Proof.
  unfold change_ip, baseline_trace. run.
  rewrite (bind_run _ _ _ _ _ (ma_ip_tor_run _)). fold (baseline_ip h).
  destruct (truthy (baseline_ip h)); cbn [negb].
  - unfold ret at 1. unfold bind at 1. now rewrite app_nil_r, <- app_assoc.
  - run. now rewrite <- !app_assoc.
Qed.


(** ** Counting in the traces *)

Lemma tor_request_is_tor : bool_decide (tor_request = tor_request) = true.
Proof. now apply bool_decide_eq_true_2. Qed.

Lemma geolocation_request_not_tor ip :
  bool_decide (geolocation_request ip = tor_request) = false.
Proof.
  apply bool_decide_eq_false_2. intros E.
  apply (f_equal timeout) in E. discriminate E.
Qed.

Ltac unfold_counters :=
  unfold attempts, change_ip_calls, newnym_tries, newnym_failures, newnym_sent,
    reload_calls.

(** Case analysis on everything a trace depends on, then computation. *)
Ltac split_world :=
  repeat match goal with
    | |- context [VERBOSE_MODE env] => destruct (VERBOSE_MODE env)
    | |- context [STEM_AVAILABLE env] => destruct (STEM_AVAILABLE env)
    | |- context [match newnym_at ?h with _ => _ end] => destruct (newnym_at h)
    | |- context [match ?out with inl _ => _ | inr _ => _ end] =>
        destruct out as [[]|]
    | |- context [if error_status ?r then _ else _] => destruct (error_status r)
    | |- context [match json ?r with _ => _ end] => destruct (json r)
    end.

Ltac crunch :=
  unfold_counters; split_world;
  cbn -[tor_request geolocation_request String.append];
  rewrite ?tor_request_is_tor, ?geolocation_request_not_tor;
  repeat split; try reflexivity; try discriminate.

Lemma verbose_trace_quiet s :
  attempts (verbose_trace s) = 0%nat /\ newnym_tries (verbose_trace s) = 0%nat
  /\ newnym_failures (verbose_trace s) = 0%nat /\ newnym_sent (verbose_trace s) = 0%nat
  /\ reload_calls (verbose_trace s) = 0%nat /\ tor_probes (verbose_trace s) = []
  /\ http_requests (verbose_trace s) = [].
Proof. unfold verbose_trace. crunch. Qed.

Lemma rotate_trace_quiet h :
  attempts (rotate_trace h) = 0%nat /\ change_ip_calls (rotate_trace h) = 0%nat
  /\ tor_probes (rotate_trace h) = [].
Proof.
  unfold rotate_trace, control_port_trace, control_port_value, reload_trace, verbose_trace.
  destruct get_os_type_cases as [E|[E|[E|E]]]; rewrite E; crunch.
Qed.

Lemma rotate_trace_rotation h :
  (newnym_sent (rotate_trace h) + reload_calls (rotate_trace h) = 1)%nat
  /\ reload_calls (rotate_trace h)
     = (if STEM_AVAILABLE env then newnym_failures (rotate_trace h) else 1%nat)
  /\ newnym_tries (rotate_trace h) = (if STEM_AVAILABLE env then 1 else 0)%nat.
Proof.
  unfold rotate_trace, control_port_trace, control_port_value, reload_trace, verbose_trace.
  destruct get_os_type_cases as [E|[E|[E|E]]]; rewrite E; crunch.
Qed.

Lemma tor_probe_trace_counts h :
  attempts (tor_probe_trace h) = 0%nat /\ change_ip_calls (tor_probe_trace h) = 0%nat
  /\ newnym_tries (tor_probe_trace h) = 0%nat /\ newnym_failures (tor_probe_trace h) = 0%nat
  /\ newnym_sent (tor_probe_trace h) = 0%nat /\ reload_calls (tor_probe_trace h) = 0%nat
  /\ tor_probes (tor_probe_trace h) = [probe_value (tor_reply h)]
  /\ http_requests (tor_probe_trace h) = [(tor_request, tor_reply h)].
Proof.
  unfold tor_probe_trace, tor_report, verbose_trace.
  destruct (tor_reply h) as [[]|r]; [crunch..|].
  unfold_counters.
  destruct (error_status r) eqn:E, (VERBOSE_MODE env);
    cbn -[tor_request]; rewrite ?tor_request_is_tor; unfold probe_value;
    rewrite ?E; repeat split; reflexivity.
Qed.


Lemma attempt_trace_counts a m s h :
  attempts (attempt_trace a m s h) = 1%nat
  /\ change_ip_calls (attempt_trace a m s h) = 0%nat
  /\ tor_probes (attempt_trace a m s h) = [candidate_at a m s h]
  /\ (newnym_sent (attempt_trace a m s h) + reload_calls (attempt_trace a m s h) = 1)%nat
  /\ reload_calls (attempt_trace a m s h)
     = (if STEM_AVAILABLE env then newnym_failures (attempt_trace a m s h) else 1%nat)
  /\ newnym_tries (attempt_trace a m s h) = (if STEM_AVAILABLE env then 1 else 0)%nat.
Proof.
  unfold attempt_trace, attempt_prefix, candidate_at.
  set (h1 := h ++ [EvPrint (MsgAttempt a m)]).
  set (h2 := h ++ _).
  destruct (rotate_trace_quiet h1) as (R1 & R2 & R3).
  destruct (rotate_trace_rotation h1) as (R4 & R5 & R6).
  destruct (tor_probe_trace_counts h2) as (P1 & P2 & P3 & P4 & P5 & P6 & P7 & _).
  unfold_counters. unfold attempts, change_ip_calls, newnym_tries, newnym_failures,
    newnym_sent, reload_calls in *.
  cbn [app count is_attempt is_log is_newnym is_newnym_failure is_newnym_sent
       is_reload_notice tor_probes].
  rewrite !count_app, !tor_probes_app. cbn [count tor_probes is_attempt is_log
    is_newnym is_newnym_failure is_newnym_sent is_reload_notice].
  rewrite R1, R2, R3, P1, P2, P3, P4, P5, P6, P7, R6.
  repeat split; try reflexivity; try lia.
  rewrite R5. destruct (STEM_AVAILABLE env); lia.
Qed.

Lemma baseline_trace_counts h :
  attempts (baseline_trace h) = 0%nat /\ change_ip_calls (baseline_trace h) = 1%nat
  /\ newnym_tries (baseline_trace h) = 0%nat /\ newnym_failures (baseline_trace h) = 0%nat
  /\ newnym_sent (baseline_trace h) = 0%nat /\ reload_calls (baseline_trace h) = 0%nat
  /\ tor_probes (baseline_trace h) = [baseline_ip h].
Proof.
  unfold baseline_trace, baseline_ip.
  set (h1 := h ++ _).
  destruct (tor_probe_trace_counts h1) as (P1 & P2 & P3 & P4 & P5 & P6 & P7 & _).
  unfold attempts, change_ip_calls, newnym_tries, newnym_failures,
    newnym_sent, reload_calls in *.
  rewrite !count_app, !tor_probes_app, P1, P2, P3, P4, P5, P6, P7.
  unfold verbose_trace.
  destruct (VERBOSE_MODE env), (truthy (probe_value (tor_reply h1)));
    repeat split; reflexivity.
Qed.

(** ** The retry loop *)

(** The loop terminates normally and follows the relation. *)
Lemma change_ip_attempts_run l m s cur h :
  0 <= s ->
  exists r t, change_ip_attempts env l m s cur h = (Ok r, h ++ t)
              /\ attempts_run m s l cur h r t.
Proof.
  intros Hs. revert cur h. induction l as [|a rest IH]; intros cur h.
  - exists None, [EvPrint (MsgFailedAfter m)]. split; [reflexivity|constructor].
  - rewrite change_ip_attempts_cons by assumption. cbv zeta.
    destruct (attempt_succeeds cur (candidate_at a m s h)) eqn:E.
    + eexists _, _. split; [reflexivity|]. now constructor.
    + destruct (IH (next_previous cur (candidate_at a m s h))
                  (h ++ attempt_trace a m s h ++ [warning a cur (candidate_at a m s h)]))
        as (r & t & Hrun & Hrel).
      exists r, (attempt_trace a m s h ++ warning a cur (candidate_at a m s h) :: t).
      split; [|now constructor].
      rewrite Hrun. f_equal. norm. reflexivity.
Qed.


Lemma warning_quiet a cur c t :
  attempts (warning a cur c :: t) = attempts t
  /\ change_ip_calls (warning a cur c :: t) = change_ip_calls t
  /\ newnym_tries (warning a cur c :: t) = newnym_tries t
  /\ newnym_failures (warning a cur c :: t) = newnym_failures t
  /\ newnym_sent (warning a cur c :: t) = newnym_sent t
  /\ reload_calls (warning a cur c :: t) = reload_calls t
  /\ tor_probes (warning a cur c :: t) = tor_probes t.
Proof.
  unfold warning, attempts, change_ip_calls, newnym_tries, newnym_failures,
    newnym_sent, reload_calls.
  destruct (truthy c && ip_eqb c cur); repeat split; reflexivity.
Qed.

(** What the log of the loop counts. *)
Lemma attempts_run_counts m s l cur h r t :
  attempts_run m s l cur h r t ->
  attempts t = length (tor_probes t)
  /\ (attempts t <= length l)%nat
  /\ change_ip_calls t = 0%nat
  /\ (newnym_sent t + reload_calls t = attempts t)%nat
  /\ newnym_tries t = (if STEM_AVAILABLE env then attempts t else 0%nat)
  /\ reload_calls t = (if STEM_AVAILABLE env then newnym_failures t else attempts t).
Proof.
  induction 1 as [cur h|a rest cur h Hok|a rest cur h r t Hfail Hrun IH].
  - cbn. destruct (STEM_AVAILABLE env); repeat split; lia.
  - destruct (attempt_trace_counts a m s h) as (A1 & A2 & A3 & A4 & A5 & A6).
    unfold attempts, change_ip_calls, newnym_tries, newnym_failures, newnym_sent,
      reload_calls in *.
    rewrite !count_app, tor_probes_app, A1, A2, A3, A6.
    cbn [count length app tor_probes is_attempt is_log is_newnym is_newnym_sent
         is_newnym_failure is_reload_notice].
    destruct (STEM_AVAILABLE env); repeat split; lia.
  - destruct (attempt_trace_counts a m s h) as (A1 & A2 & A3 & A4 & A5 & A6).
    destruct (warning_quiet a cur (candidate_at a m s h) t)
      as (W1 & W2 & W3 & W4 & W5 & W6 & W7).
    destruct IH as (I1 & I2 & I3 & I4 & I5 & I6).
    unfold attempts, change_ip_calls, newnym_tries, newnym_failures, newnym_sent,
      reload_calls in *.
    rewrite !count_app, tor_probes_app, W1, W2, W3, W4, W5, W6, W7, A1, A2, A3, A6.
    rewrite length_app. cbn [length].
    destruct (STEM_AVAILABLE env); repeat split; lia.
Qed.




(** [change_ip]: the baseline probe, then the loop over the attempts
    [1 .. max_retries]. *)
Lemma change_ip_spec m s h :
  0 <= s ->
  exists r t,
    change_ip env m s h = (Ok r, h ++ baseline_trace h ++ t)
    /\ attempts_run m s (range 1 (m + 1)) (baseline_ip h) (h ++ baseline_trace h) r t.
Proof.
  intros Hs. rewrite change_ip_run.
  destruct (change_ip_attempts_run (range 1 (m + 1)) m s (baseline_ip h)
              (h ++ baseline_trace h) Hs) as (r & t & Hrun & Hrel).
  exists r, t. split; [|assumption]. rewrite Hrun. now rewrite <- app_assoc.
Qed.



(** * The rotation verifier *)










(** * The rotation driver *)

Lemma reload_trace_one_call h :
  reload_calls (reload_trace h) = 1%nat /\ newnym_tries (reload_trace h) = 0%nat.
Proof.
  unfold reload_trace, verbose_trace.
  destruct get_os_type_cases as [E|[E|[E|E]]]; rewrite E; crunch.
Qed.

Lemma reload_trace_linux h :
  get_os_type env = "Linux" ->
  exists status, In (EvSystem "sudo systemctl reload tor" status) (reload_trace h).
Proof.
  intros E. unfold reload_trace. rewrite E. cbn [String.eqb Ascii.eqb Bool.eqb].
  eexists. apply in_or_app. right. right. left. reflexivity.
Qed.

Lemma control_port_trace_failure h e :
  STEM_AVAILABLE env = true -> newnym_at h = Some e ->
  control_port_value h = false
  /\ newnym_tries (control_port_trace h) = 1%nat
  /\ newnym_failures (control_port_trace h) = 1%nat
  /\ reload_calls (control_port_trace h) = 0%nat.
Proof.
  intros Hstem He. unfold control_port_value, control_port_trace, verbose_trace.
  rewrite Hstem, He. crunch.
Qed.

Lemma control_port_trace_success h :
  STEM_AVAILABLE env = true -> newnym_at h = None ->
  control_port_value h = true
  /\ newnym_tries (control_port_trace h) = 1%nat
  /\ newnym_failures (control_port_trace h) = 0%nat
  /\ reload_calls (control_port_trace h) = 0%nat.
Proof.
  intros Hstem He. unfold control_port_value, control_port_trace, verbose_trace.
  rewrite Hstem, He. crunch.
Qed.

(** C7. With [stem] present every rotation starts at the control port,
    whatever the log holds of earlier fallbacks: the reload follows only
    when this very use of the control port fails.  Over a call of
    [change_ip] the control port is tried once per attempt and the service
    is reloaded once per failure of the control port. *)
Theorem rotation_strategy_is_chosen_afresh :
  STEM_AVAILABLE env = true ->
  (forall h, exists t,
      rotate env h
      = (Ok tt, h ++ verbose_trace "Attempting IP change via Tor control port."
                  ++ EvNewnym 9051 (newnym_at h) :: t)
      /\ newnym_tries t = 0%nat
      /\ reload_calls t = match newnym_at h with None => 0 | Some _ => 1 end%nat)
  /\ (forall m s h, 0 <= s ->
        exists r t,
          change_ip env m s h = (Ok r, h ++ t)
          /\ newnym_tries t = attempts t
          /\ reload_calls t = newnym_failures t).
Proof.
  intros Hstem. split.
  - intros h. rewrite rotate_run. unfold rotate_trace. rewrite Hstem.
    destruct (newnym_at h) as [e|] eqn:He.
    + destruct (control_port_trace_failure h e Hstem He) as (-> & _).
      destruct (reload_trace_one_call (h ++ control_port_trace h)) as (R1 & R2).
      exists ((verbose_trace ("Error sending NEWNYM signal: " +:+ exn_message e)
               ++ [EvPrint (MsgNewnymFailed (exn_message e))])
              ++ reload_trace (h ++ control_port_trace h)).
      split; [|split].
      * f_equal. unfold control_port_trace at 1. rewrite Hstem, He. norm. reflexivity.
      * unfold newnym_tries in *. rewrite !count_app, R2.
        unfold verbose_trace. crunch.
      * unfold reload_calls in *. rewrite !count_app, R1.
        unfold verbose_trace. crunch.
    + destruct (control_port_trace_success h Hstem He) as (-> & _).
      exists [EvPrint MsgNewnymSent]. split; [|split; reflexivity].
      f_equal. unfold control_port_trace. rewrite Hstem, He. norm. reflexivity.
  - intros m s h Hs.
    destruct (change_ip_spec m s h Hs) as (r & t & Hrun & Hrel).
    destruct (baseline_trace_counts h) as (B1 & _ & B3 & B4 & _ & B6 & _).
    destruct (attempts_run_counts _ _ _ _ _ _ _ Hrel) as (_ & _ & _ & _ & C5 & C6).
    rewrite Hstem in C5, C6.
    exists r, (baseline_trace h ++ t). split; [assumption|].
    unfold attempts, newnym_tries, reload_calls, newnym_failures in *.
    rewrite !count_app, B1, B3, B4, B6, C5, C6. split; reflexivity.
Qed.

(** C3, as the code has it.  When the control port fails in an attempt,
    [change_ip_via_control_port] returns [False] and the same attempt goes
    on to [reload_tor_service] before it sleeps and probes.  The reload
    returns [None] whatever became of the command it dispatched, and the
    rotation block of [change_ip] yields no value at all.  The one boolean
    of the rotation is the result of [change_ip_via_control_port]: [True]
    exactly when the NEWNYM signal was sent. *)
Theorem control_port_failure_falls_back_to_reload a rest m s cur h e :
  0 <= s ->
  STEM_AVAILABLE env = true ->
  newnym_at (h ++ [EvPrint (MsgAttempt a m)]) = Some e ->
  let h1 := h ++ [EvPrint (MsgAttempt a m)] in
  let h2 := h1 ++ control_port_trace h1 in
  change_ip_via_control_port env h1 = (Ok false, h2)
  /\ reload_tor_service env h2 = (Ok PyNone, h2 ++ reload_trace h2)
  /\ rotate env h1 = (Ok tt, h2 ++ reload_trace h2)
  /\ In (EvNewnym 9051 (Some e)) (control_port_trace h1)
  /\ reload_calls (reload_trace h2) = 1%nat
  /\ (get_os_type env = "Linux" ->
      exists status, In (EvSystem "sudo systemctl reload tor" status) (reload_trace h2))
  /\ (exists r t,
        change_ip_attempts env (a :: rest) m s cur h
        = (Ok r, h2 ++ reload_trace h2 ++ EvSleep s :: t))
  /\ (forall h', fst (reload_tor_service env h') = Ok PyNone)
  /\ (forall h',
        fst (change_ip_via_control_port env h')
        = Ok match newnym_at h' with None => true | Some _ => false end).
Proof.
  intros Hs Hstem He. cbv zeta.
  set (h1 := h ++ [EvPrint (MsgAttempt a m)]) in *.
  set (h2 := h1 ++ control_port_trace h1).
  destruct (control_port_trace_failure h1 e Hstem He) as (Hv & _).
  split; [|split; [|split; [|split; [|split; [|split; [|split; [|split]]]]]]].
  - rewrite change_ip_via_control_port_run, Hv. reflexivity.
  - apply reload_tor_service_run.
  - rewrite rotate_run. unfold rotate_trace. rewrite Hstem, Hv.
    unfold h2. now rewrite <- app_assoc.
  - unfold control_port_trace. rewrite Hstem, He.
    apply in_or_app. right. now left.
  - apply reload_trace_one_call.
  - apply reload_trace_linux.
  - destruct (change_ip_attempts_run (a :: rest) m s cur h Hs) as (r & t & Hrun & Hrel).
    assert (Hpre : attempt_trace a m s h
                   = EvPrint (MsgAttempt a m) :: control_port_trace h1
                     ++ reload_trace h2 ++ EvSleep s
                     :: tor_probe_trace (h ++ attempt_prefix a m s h)).
    { unfold attempt_trace, attempt_prefix, rotate_trace. fold h1.
      rewrite Hstem, Hv. fold h2. norm. reflexivity. }
    inversion Hrel; subst.
    + eexists _, _. rewrite Hrun, Hpre. unfold h2, h1. norm. reflexivity.
    + eexists _, _. rewrite Hrun, Hpre. unfold h2, h1. norm. reflexivity.
  - intros h'. now rewrite reload_tor_service_run.
  - intros h'. rewrite change_ip_via_control_port_run.
    unfold control_port_value. now rewrite Hstem.
Qed.

(** * The probes *)

Lemma normal_probe_trace_requests h :
  http_requests (normal_probe_trace h) = [(normal_request, normal_reply h)].
Proof.
  unfold normal_probe_trace, normal_report, verbose_trace.
  destruct (normal_reply h) as [[]|r]; crunch.
Qed.

(** C4. Both probes send one request and return normally whatever the
    answer: [None] when [requests] raises (a timeout or any other of its
    exceptions) or the status is an error, the stripped body otherwise.
    Through Tor the request goes to the SOCKS proxy at 127.0.0.1:9050 with
    a timeout of 30 seconds; directly it uses no proxy and 10 seconds. *)
Theorem probes_return_none_on_request_errors h :
  (forall e, tor_reply h = inl e ->
     exists t, ma_ip_tor env h = (Ok None, h ++ t)
               /\ http_requests t = [(tor_request, inl e)])
  /\ (forall e, normal_reply h = inl e ->
       exists t, ma_ip_normal env h = (Ok None, h ++ t)
                 /\ http_requests t = [(normal_request, inl e)])
  /\ (exists t,
        ma_ip_tor env h = (Ok (probe_value (tor_reply h)), h ++ t)
        /\ http_requests t = [(tor_request, tor_reply h)])
  /\ (exists t,
        ma_ip_normal env h = (Ok (probe_value (normal_reply h)), h ++ t)
        /\ http_requests t = [(normal_request, normal_reply h)])
  /\ (forall r, error_status r = true -> probe_value (inr r) = None)
  /\ timeout tor_request = 30
  /\ proxies tor_request !! "http" = Some "socks5h://127.0.0.1:9050"
  /\ proxies tor_request !! "https" = Some "socks5h://127.0.0.1:9050"
  /\ timeout normal_request = 10
  /\ proxies normal_request = ∅.
Proof.
  assert (Htor : exists t,
            ma_ip_tor env h = (Ok (probe_value (tor_reply h)), h ++ t)
            /\ http_requests t = [(tor_request, tor_reply h)]).
  { exists (tor_probe_trace h). split; [apply ma_ip_tor_run|].
    apply tor_probe_trace_counts. }
  assert (Hnormal : exists t,
            ma_ip_normal env h = (Ok (probe_value (normal_reply h)), h ++ t)
            /\ http_requests t = [(normal_request, normal_reply h)]).
  { exists (normal_probe_trace h). split; [apply ma_ip_normal_run|].
    apply normal_probe_trace_requests. }
  split; [|split; [|split; [|split; [|split]]]]; try assumption.
  - intros e He. destruct Htor as (t & Hrun & Hreq). rewrite He in *. now exists t.
  - intros e He. destruct Hnormal as (t & Hrun & Hreq). rewrite He in *. now exists t.
  - intros r E. cbn [probe_value]. now rewrite E.
  - repeat split; reflexivity.
Qed.

(** * Geolocation *)


(** * The operating system *)

(** C10. [get_os_type] maps "Linux" to "Linux", "Darwin" to "macOS",
    "Windows" to "Windows" and every other system name to "Unknown": its
    result is always one of these four strings.  A caller that branches on
    them, such as [reload_tor_service], takes exactly one branch. *)
Theorem get_os_type_total :
  In (get_os_type env) ["Linux"; "macOS"; "Windows"; "Unknown"]
  /\ (platform_system env = "Linux" -> get_os_type env = "Linux")
  /\ (platform_system env = "Darwin" -> get_os_type env = "macOS")
  /\ (platform_system env = "Windows" -> get_os_type env = "Windows")
  /\ (platform_system env <> "Linux" -> platform_system env <> "Darwin" ->
      platform_system env <> "Windows" -> get_os_type env = "Unknown")
  /\ (forall h, exists t,
        reload_tor_service env h = (Ok PyNone, h ++ t) /\ reload_calls t = 1%nat).
Proof.
  split; [|split; [|split; [|split; [|split]]]].
  - destruct get_os_type_cases as [E|[E|[E|E]]]; rewrite E; cbn; tauto.
  - unfold get_os_type. now intros ->.
  - unfold get_os_type. now intros ->.
  - unfold get_os_type. now intros ->.
  - unfold get_os_type. intros H1 H2 H3.
    apply String.eqb_neq in H1, H2, H3. now rewrite H1, H2, H3.
  - intros h. exists (reload_trace h). split; [apply reload_tor_service_run|].
    apply reload_trace_one_call.
Qed.

(** * The scheduling loop *)






(** * Edges of the retry loop *)

Lemma commands_app t1 t2 : commands (t1 ++ t2) = commands t1 ++ commands t2.
Proof.
  induction t1 as [|e t1 IH]; [reflexivity|].
  destruct e; cbn [app commands]; try exact IH. now rewrite IH.
Qed.

Lemma sleeps_app t1 t2 : sleeps (t1 ++ t2) = sleeps t1 ++ sleeps t2.
Proof.
  induction t1 as [|e t1 IH]; [reflexivity|].
  destruct e; cbn [app sleeps]; try exact IH. now rewrite IH.
Qed.

Lemma http_requests_app t1 t2 :
  http_requests (t1 ++ t2) = http_requests t1 ++ http_requests t2.
Proof.
  induction t1 as [|e t1 IH]; [reflexivity|].
  destruct e; cbn [app http_requests]; try exact IH. now rewrite IH.
Qed.

Lemma all_through_tor_app t1 t2 :
  all_through_tor t1 -> all_through_tor t2 -> all_through_tor (t1 ++ t2).
Proof.
  unfold all_through_tor. rewrite http_requests_app. intros H1 H2.
  apply List.Forall_app. now split.
Qed.

Lemma tor_request_is_proxied : bool_decide (proxies tor_request = ∅) = false.
Proof.
  apply bool_decide_eq_false_2. intros E.
  apply (f_equal (fun m : gmap string string => m !! "http")) in E. discriminate E.
Qed.

Lemma geolocation_request_is_direct ip :
  bool_decide (proxies (geolocation_request ip) = ∅) = true.
Proof. now apply bool_decide_eq_true_2. Qed.

Ltac unfold_readings :=
  unfold successes, reports, direct_requests, all_through_tor.

Ltac crunch_readings :=
  unfold_readings; split_world;
  cbn -[tor_request geolocation_request String.append];
  rewrite ?tor_request_is_proxied, ?geolocation_request_is_direct;
  repeat split; try reflexivity; try discriminate; try (repeat constructor).

Lemma rotate_trace_readings h :
  sleeps (rotate_trace h) = [] /\ http_requests (rotate_trace h) = []
  /\ successes (rotate_trace h) = 0%nat /\ reports (rotate_trace h) = 0%nat
  /\ direct_requests (rotate_trace h) = 0%nat.
Proof.
  unfold rotate_trace, control_port_trace, control_port_value, reload_trace, verbose_trace.
  destruct get_os_type_cases as [E|[E|[E|E]]]; rewrite E; crunch_readings.
Qed.

Lemma tor_probe_trace_readings h :
  sleeps (tor_probe_trace h) = [] /\ commands (tor_probe_trace h) = []
  /\ successes (tor_probe_trace h) = 0%nat /\ reports (tor_probe_trace h) = 0%nat
  /\ direct_requests (tor_probe_trace h) = 0%nat.
Proof.
  unfold tor_probe_trace, tor_report, verbose_trace.
  destruct (tor_reply h) as [[]|r]; crunch_readings.
Qed.

Lemma attempt_trace_readings a m s h :
  sleeps (attempt_trace a m s h) = [s]
  /\ http_requests (attempt_trace a m s h)
     = [(tor_request, tor_reply (h ++ attempt_prefix a m s h))]
  /\ successes (attempt_trace a m s h) = 0%nat
  /\ reports (attempt_trace a m s h) = 0%nat
  /\ direct_requests (attempt_trace a m s h) = 0%nat.
Proof.
  unfold attempt_trace, attempt_prefix.
  set (h1 := h ++ [EvPrint (MsgAttempt a m)]).
  set (h2 := h ++ _).
  destruct (rotate_trace_readings h1) as (R1 & R2 & R3 & R4 & R5).
  destruct (tor_probe_trace_readings h2) as (P1 & _ & P3 & P4 & P5).
  destruct (tor_probe_trace_counts h2) as (_ & _ & _ & _ & _ & _ & _ & P8).
  unfold successes, reports, direct_requests in *.
  cbn [app sleeps http_requests count is_success is_report is_direct_request].
  rewrite !sleeps_app, !http_requests_app, !count_app.
  cbn [sleeps http_requests count is_success is_report is_direct_request app].
  rewrite R1, R2, R3, R4, R5, P1, P3, P4, P5, P8. repeat split; reflexivity.
Qed.

Lemma baseline_trace_readings h :
  sleeps (baseline_trace h) = [] /\ commands (baseline_trace h) = []
  /\ all_through_tor (baseline_trace h)
  /\ successes (baseline_trace h) = 0%nat /\ reports (baseline_trace h) = 0%nat
  /\ direct_requests (baseline_trace h) = 0%nat.
Proof.
  unfold baseline_trace, baseline_ip.
  set (h1 := h ++ _).
  destruct (tor_probe_trace_readings h1) as (P1 & P2 & P3 & P4 & P5).
  destruct (tor_probe_trace_counts h1) as (_ & _ & _ & _ & _ & _ & _ & P8).
  unfold successes, reports, direct_requests, all_through_tor in *.
  rewrite !sleeps_app, !commands_app, !http_requests_app, !count_app,
    P1, P2, P3, P4, P5, P8.
  unfold verbose_trace.
  destruct (VERBOSE_MODE env), (truthy (probe_value (tor_reply h1)));
    repeat split; try reflexivity; repeat constructor.
Qed.

Lemma warning_readings a cur c t :
  sleeps (warning a cur c :: t) = sleeps t
  /\ http_requests (warning a cur c :: t) = http_requests t
  /\ successes (warning a cur c :: t) = successes t
  /\ reports (warning a cur c :: t) = reports t
  /\ direct_requests (warning a cur c :: t) = direct_requests t.
Proof.
  unfold warning, successes, reports, direct_requests.
  destruct (truthy c && ip_eqb c cur); repeat split; reflexivity.
Qed.

Lemma attempts_run_readings m s l cur h r t :
  attempts_run m s l cur h r t ->
  sleeps t = repeat s (attempts t)
  /\ all_through_tor t
  /\ successes t = (if truthy r then 1 else 0)%nat
  /\ reports t = 0%nat
  /\ direct_requests t = 0%nat.
Proof.
  induction 1 as [cur h|a rest cur h Hok|a rest cur h r t Hfail Hrun IH].
  - repeat split. constructor.
  - destruct (attempt_trace_readings a m s h) as (A1 & A2 & A3 & A4 & A5).
    destruct (attempt_trace_counts a m s h) as (C1 & _).
    apply attempt_succeeds_spec in Hok as (ip & Hc & Hne & _).
    assert (Ht : truthy (candidate_at a m s h) = true)
      by (apply truthy_spec; now exists ip).
    unfold attempts, successes, reports, direct_requests, all_through_tor in *.
    rewrite sleeps_app, http_requests_app, !count_app, A1, A2, A3, A4, A5, C1, Ht.
    repeat split. repeat constructor.
  - destruct (attempt_trace_readings a m s h) as (A1 & A2 & A3 & A4 & A5).
    destruct (attempt_trace_counts a m s h) as (C1 & _).
    destruct (warning_readings a cur (candidate_at a m s h) t)
      as (W1 & W2 & W3 & W4 & W5).
    destruct (warning_quiet a cur (candidate_at a m s h) t) as (Q1 & _).
    destruct IH as (I1 & I2 & I3 & I4 & I5).
    unfold attempts, successes, reports, direct_requests, all_through_tor in *.
    rewrite sleeps_app, http_requests_app, !count_app,
      W1, W2, W3, W4, W5, Q1, A1, A2, A3, A4, A5, C1, I1, I3, I4, I5.
    repeat split. constructor; [reflexivity|exact I2].
Qed.

Lemma range_nil lo hi : hi <= lo -> range lo hi = [].
Proof.
  intros H. unfold range. replace (Z.to_nat (hi - lo)) with 0%nat by lia. reflexivity.
Qed.


(** X1. With [max_retries <= 0] the loop body never runs: [change_ip] makes
    its baseline probe, reports the failure and returns [None], without a
    rotation, a command or a pause, whatever [ip_check_interval] is. *)
Theorem change_ip_without_retries m s h :
  m <= 0 ->
  change_ip env m s h
  = (Ok None, h ++ baseline_trace h ++ [EvPrint (MsgFailedAfter m)])
  /\ tor_probes (baseline_trace h ++ [EvPrint (MsgFailedAfter m)]) = [baseline_ip h]
  /\ attempts (baseline_trace h ++ [EvPrint (MsgFailedAfter m)]) = 0%nat
  /\ newnym_tries (baseline_trace h ++ [EvPrint (MsgFailedAfter m)]) = 0%nat
  /\ commands (baseline_trace h ++ [EvPrint (MsgFailedAfter m)]) = []
  /\ sleeps (baseline_trace h ++ [EvPrint (MsgFailedAfter m)]) = [].
Proof.
  intros Hm. split.
  - rewrite change_ip_run, range_nil by lia. cbn [change_ip_attempts].
    unfold bind, print, emit, ret. now rewrite <- app_assoc.
  - destruct (baseline_trace_counts h) as (B1 & _ & B3 & _ & _ & _ & B7).
    destruct (baseline_trace_readings h) as (R1 & R2 & _).
    unfold attempts, newnym_tries in *.
    rewrite tor_probes_app, !count_app, commands_app, sleeps_app, B1, B3, B7, R1, R2.
    repeat split.
Qed.


Lemma change_ip_attempts_requests l m s cur h :
  exists o t,
    change_ip_attempts env l m s cur h = (o, h ++ t) /\ all_through_tor t.
Proof.
  destruct (Z_lt_le_dec s 0) as [Hs|Hs].
  - destruct l as [|a rest].
    + eexists _, _. split; [reflexivity|]. constructor.
    + cbn [change_ip_attempts]. run.
      rewrite (bind_run _ _ _ _ _ (rotate_run _)).
      erewrite bind_raise by (apply sleep_negative; assumption).
      eexists _, (EvPrint (MsgAttempt a m) :: rotate_trace _).
      split; [f_equal; norm; reflexivity|].
      unfold all_through_tor. cbn [http_requests].
      destruct (rotate_trace_readings (h ++ [EvPrint (MsgAttempt a m)])) as (_ & -> & _).
      constructor.
  - destruct (change_ip_attempts_run l m s cur h Hs) as (r & t & Hrun & Hrel).
    exists (Ok r), t. split; [assumption|].
    now apply attempts_run_readings with (1 := Hrel).
Qed.

(** X3. Whatever its arguments and however it ends, [change_ip] sends
    every one of its requests through the Tor proxy: the only request in
    its log is the probe of [ma_ip_tor], never a direct lookup. *)
Theorem change_ip_requests_go_through_tor m s h :
  exists o t,
    change_ip env m s h = (o, h ++ t)
    /\ all_through_tor t
    /\ proxies tor_request !! "https" = Some "socks5h://127.0.0.1:9050".
Proof.
  rewrite change_ip_run.
  destruct (change_ip_attempts_requests (range 1 (m + 1)) m s (baseline_ip h)
              (h ++ baseline_trace h)) as (o & t & Hrun & Hall).
  exists o, (baseline_trace h ++ t). split; [|split; [|reflexivity]].
  - rewrite Hrun. now rewrite <- app_assoc.
  - apply all_through_tor_app; [apply baseline_trace_readings|assumption].
Qed.


(** X5. Without [stem] the control port is never used: every rotation is
    one call of [reload_tor_service], so a call of [change_ip] reloads the
    service once per attempt. *)
Theorem rotation_without_stem :
  STEM_AVAILABLE env = false ->
  (forall h, rotate env h = (Ok tt, h ++ reload_trace h)
             /\ newnym_tries (reload_trace h) = 0%nat
             /\ reload_calls (reload_trace h) = 1%nat)
  /\ (forall m s h, 0 <= s ->
        exists r t,
          change_ip env m s h = (Ok r, h ++ t)
          /\ newnym_tries t = 0%nat
          /\ reload_calls t = attempts t).
Proof.
  intros Hstem. split.
  - intros h. rewrite rotate_run. unfold rotate_trace. rewrite Hstem.
    destruct (reload_trace_one_call h) as (R1 & R2). now repeat split.
  - intros m s h Hs.
    destruct (change_ip_spec m s h Hs) as (r & t & Hrun & Hrel).
    destruct (baseline_trace_counts h) as (B1 & _ & B3 & _ & _ & B6 & _).
    destruct (attempts_run_counts _ _ _ _ _ _ _ Hrel) as (_ & _ & _ & _ & C5 & C6).
    rewrite Hstem in C5, C6.
    exists r, (baseline_trace h ++ t). split; [assumption|].
    unfold attempts, newnym_tries, reload_calls in *.
    rewrite !count_app, B1, B3, B6, C5, C6. split; reflexivity.
Qed.

Lemma lstrip_blank s : blank s = true -> lstrip s = "".
Proof.
  induction s as [|c s IH]; [reflexivity|].
  cbn [blank lstrip]. rewrite andb_true_iff. intros (-> & Hs). now apply IH.
Qed.

Lemma strip_blank s : blank s = true -> strip s = "".
Proof. intros H. unfold strip. now rewrite lstrip_blank. Qed.

(** X6. A reply whose body is blank gives the probe the empty string, and
    [change_ip] takes the empty string for no address: the attempt fails
    with the "failed to obtain" warning and the comparison value stays as
    it was. *)
Theorem blank_reply_is_no_address a rest m s cur h r :
  0 <= s ->
  tor_reply (h ++ attempt_prefix a m s h) = inr r ->
  error_status r = false ->
  blank (text r) = true ->
  candidate_at a m s h = Some ""
  /\ change_ip_attempts env (a :: rest) m s cur h
     = change_ip_attempts env rest m s cur
         (h ++ attempt_trace a m s h ++ [EvPrint (MsgNoNewIp a)]).
Proof.
  intros Hs Hreply Hstatus Hblank.
  assert (Hc : candidate_at a m s h = Some "").
  { unfold candidate_at. rewrite Hreply. cbn [probe_value].
    now rewrite Hstatus, strip_blank. }
  split; [assumption|].
  rewrite change_ip_attempts_cons by assumption. cbv zeta. rewrite Hc.
  reflexivity.
Qed.

(** X7. A negative [count] is an empty [range]: [change_ip_repeatedly]
    returns at once and leaves the log as it was, whatever [interval]. *)
Theorem change_ip_repeatedly_negative_count fuel interval count h :
  count < 0 ->
  change_ip_repeatedly env fuel interval count h = (Ok tt, h).
Proof.
  intros Hc. unfold change_ip_repeatedly.
  destruct (count =? 0) eqn:E; [lia|].
  now rewrite range_nil by lia.
Qed.






(** * Is Tor running, which address to show *)

Lemma check_output_run cmd h :
  check_output env cmd h
  = (Ok (if system_status env h cmd =? 0 then Completed
         else CalledProcessError (system_status env h cmd)),
     h ++ [EvSystem cmd (system_status env h cmd)]).
Proof. reflexivity. Qed.

(** What [is_tor_running] does on each system. *)
Lemma is_tor_running_run h :
  exists v t,
    is_tor_running env h = (Ok v, h ++ t)
    /\ http_requests t = [] /\ sleeps t = [] /\ newnym_tries t = 0%nat
    /\ (get_os_type env = "Linux" \/ get_os_type env = "macOS" ->
        exists status,
          commands t = ["pgrep -x tor"]
          /\ In (EvSystem "pgrep -x tor" status) t
          /\ v = (status =? 0))
    /\ (get_os_type env = "Windows" -> v = true /\ commands t = [])
    /\ (get_os_type env = "Unknown" -> v = false /\ commands t = []).
Proof.
  unfold is_tor_running.
  destruct get_os_type_cases as [E|[E|[E|E]]]; rewrite E;
    cbn [String.eqb Ascii.eqb Bool.eqb orb]; cbv iota; run.
  1,2: rewrite (bind_run _ _ _ _ _ (check_output_run _ _));
       set (status := system_status env _ _);
       destruct (status =? 0) eqn:Est; run; unfold ret;
       eexists _, _; (split; [norm; reflexivity|]);
       unfold verbose_trace, newnym_tries; destruct (VERBOSE_MODE env);
       cbn; repeat split; try discriminate;
       try (intros [?|?]; discriminate);
       exists status; rewrite Est; repeat split; tauto.
  all: unfold ret; eexists _, _; (split; [norm; reflexivity|]);
       unfold verbose_trace, newnym_tries; destruct (VERBOSE_MODE env);
       cbn; repeat split; try discriminate;
       try (intros [?|?]; discriminate).
Qed.

(** X10. [is_tor_running] never raises.  On Linux and macOS it runs
    [pgrep -x tor] once and answers [True] exactly when the status is 0; on
    Windows it answers [True] and on an unknown system [False], without
    running anything. *)
Theorem is_tor_running_by_platform h :
  exists v t,
    is_tor_running env h = (Ok v, h ++ t)
    /\ (get_os_type env = "Linux" \/ get_os_type env = "macOS" ->
        exists status,
          commands t = ["pgrep -x tor"]
          /\ In (EvSystem "pgrep -x tor" status) t
          /\ v = (status =? 0))
    /\ (get_os_type env = "Windows" -> v = true /\ commands t = [])
    /\ (get_os_type env = "Unknown" -> v = false /\ commands t = []).
Proof.
  destruct (is_tor_running_run h) as (v & t & Hrun & _ & _ & _ & H1 & H2 & H3).
  exists v, t. split; [exact Hrun|]. split; [exact H1|]. split; assumption.
Qed.

Lemma normal_probe_trace_readings h :
  sleeps (normal_probe_trace h) = [] /\ commands (normal_probe_trace h) = []
  /\ newnym_tries (normal_probe_trace h) = 0%nat.
Proof.
  unfold normal_probe_trace, normal_report, verbose_trace, newnym_tries.
  destruct (normal_reply h) as [[]|r]; destruct (VERBOSE_MODE env);
    try destruct (error_status r); now repeat split.
Qed.

(** What [ma_ip] does. *)
Lemma ma_ip_run h :
  exists rq out t,
    ma_ip env h = (Ok (probe_value out), h ++ t)
    /\ http_requests t = [(rq, out)]
    /\ (rq = tor_request \/ rq = normal_request)
    /\ sleeps t = [] /\ newnym_tries t = 0%nat
    /\ incl (commands t) ["pgrep -x tor"]
    /\ (get_os_type env = "Linux" \/ get_os_type env = "macOS" ->
        exists status,
          In (EvSystem "pgrep -x tor" status) t
          /\ rq = if status =? 0 then tor_request else normal_request)
    /\ (get_os_type env = "Windows" -> rq = tor_request)
    /\ (get_os_type env = "Unknown" -> rq = normal_request).
Proof.
  destruct (is_tor_running_run h)
    as (v & t & Hrun & Hreq & Hsl & Hnn & H1 & H2 & H3).
  assert (Hcmd : incl (commands t) ["pgrep -x tor"]).
  { destruct (get_os_type_cases) as [E|[E|[E|E]]].
    - destruct (H1 (or_introl E)) as (status & -> & _). apply incl_refl.
    - destruct (H1 (or_intror E)) as (status & -> & _). apply incl_refl.
    - destruct (H2 E) as (_ & ->). apply incl_nil_l.
    - destruct (H3 E) as (_ & ->). apply incl_nil_l. }
  unfold ma_ip. rewrite (bind_run _ _ _ _ _ Hrun). destruct v.
  - rewrite ma_ip_tor_run.
    destruct (tor_probe_trace_counts (h ++ t)) as (_ & _ & P3 & _ & _ & _ & _ & P).
    destruct (tor_probe_trace_readings (h ++ t)) as (Q1 & Q2 & _).
    exists tor_request, (tor_reply (h ++ t)), (t ++ tor_probe_trace (h ++ t)).
    unfold newnym_tries in *.
    rewrite http_requests_app, sleeps_app, commands_app, count_app,
      Hreq, Hsl, Hnn, P, P3, Q1, Q2, <- app_assoc. rewrite !app_nil_r.
    split; [reflexivity|]. split; [reflexivity|]. split; [now left|].
    split; [reflexivity|]. split; [reflexivity|]. split; [exact Hcmd|].
    split; [|split].
    + intros Hos. destruct (H1 Hos) as (status & _ & Hin & Hv).
      exists status. rewrite <- Hv. split; [|reflexivity].
      apply in_or_app. now left.
    + reflexivity.
    + intros Hos. now destruct (H3 Hos).
  - run. rewrite ma_ip_normal_run.
    set (h1 := (h ++ t) ++ _).
    destruct (normal_probe_trace_readings h1) as (Q1 & Q2 & Q3).
    destruct (verbose_trace_quiet "Tor not detected as running, fetching normal IP.")
      as (_ & V2 & _ & _ & _ & _ & V7).
    exists normal_request, (normal_reply h1),
      (t ++ verbose_trace "Tor not detected as running, fetching normal IP."
         ++ normal_probe_trace h1).
    unfold newnym_tries in *.
    rewrite !http_requests_app, !sleeps_app, !commands_app, !count_app,
      Hreq, Hsl, Hnn, normal_probe_trace_requests, V2, V7, Q1, Q2, Q3.
    assert (Hv : sleeps (verbose_trace "Tor not detected as running, fetching normal IP.") = []
                 /\ commands (verbose_trace "Tor not detected as running, fetching normal IP.") = []).
    { unfold verbose_trace. now destruct (VERBOSE_MODE env). }
    destruct Hv as (-> & ->). rewrite !app_nil_r.
    split; [f_equal; unfold h1; norm; reflexivity|].
    split; [reflexivity|]. split; [now right|].
    split; [reflexivity|]. split; [reflexivity|]. split; [exact Hcmd|].
    split; [|split].
    + intros Hos. destruct (H1 Hos) as (status & _ & Hin & Hv).
      exists status. rewrite <- Hv. split; [|reflexivity].
      apply in_or_app. now left.
    + intros Hos. now destruct (H2 Hos).
    + reflexivity.
Qed.

(** X11. [ma_ip] never raises and sends exactly one request: the probe
    through Tor when [is_tor_running] said yes, the direct probe
    otherwise.  So on Windows the lookup always goes through Tor, with no
    direct fallback when the probe fails, and on an unknown system it is
    always direct. *)
Theorem ma_ip_single_lookup h :
  exists v t rq out,
    ma_ip env h = (Ok v, h ++ t)
    /\ http_requests t = [(rq, out)]
    /\ v = probe_value out
    /\ (rq = tor_request \/ rq = normal_request)
    /\ (get_os_type env = "Linux" \/ get_os_type env = "macOS" ->
        exists status,
          In (EvSystem "pgrep -x tor" status) t
          /\ rq = if status =? 0 then tor_request else normal_request)
    /\ (get_os_type env = "Windows" -> rq = tor_request)
    /\ (get_os_type env = "Unknown" -> rq = normal_request).
Proof.
  destruct (ma_ip_run h)
    as (rq & out & t & Hrun & Hreq & Hrq & _ & _ & _ & H1 & H2 & H3).
  exists (probe_value out), t, rq, out.
  split; [exact Hrun|]. split; [exact Hreq|]. split; [reflexivity|].
  split; [exact Hrq|]. split; [exact H1|]. split; assumption.
Qed.



(** X12. [reload_tor_service] runs one command on Linux, one on macOS and
    none on Windows or an unknown system, and it takes no notice of how
    the command ends: it returns [None] and never raises, whatever the
    exit status. *)
Theorem reload_tor_service_commands h :
  exists t,
    reload_tor_service env h = (Ok PyNone, h ++ t)
    /\ commands t
       = platform_commands (get_os_type env)
           "sudo systemctl reload tor" "brew services restart tor"
    /\ http_requests t = [] /\ newnym_tries t = 0%nat.
Proof.
  exists (reload_trace h). split; [apply reload_tor_service_run|].
  unfold reload_trace, verbose_trace, platform_commands, newnym_tries.
  destruct get_os_type_cases as [E|[E|[E|E]]]; rewrite E;
    destruct (VERBOSE_MODE env); repeat split; reflexivity.
Qed.

End Runs.

(** * Services, connectivity, shutdown *)

Section HostRuns.

Variable hst : host.

(** The settings of the world. *)
Let env := world hst [].

Lemma core_of_app l1 l2 : core_of (l1 ++ l2) = core_of l1 ++ core_of l2.
Proof.
  induction l1 as [|e l1 IH]; [reflexivity|].
  destruct e; cbn [app core_of]; try exact IH. now rewrite IH.
Qed.

Lemma core_of_map_Core t : core_of (map Core t) = t.
Proof. induction t as [|e t IH]; [reflexivity|]. cbn. now rewrite IH. Qed.

Lemma notices_app l1 l2 : notices (l1 ++ l2) = notices l1 ++ notices l2.
Proof.
  induction l1 as [|e l1 IH]; [reflexivity|].
  destruct e; cbn [app notices]; try exact IH. now rewrite IH.
Qed.

Lemma notices_map_Core t : notices (map Core t) = [].
Proof. induction t as [|e t IH]; [reflexivity|]. exact IH. Qed.

Lemma control_port_uses_app l1 l2 :
  control_port_uses (l1 ++ l2) = control_port_uses l1 ++ control_port_uses l2.
Proof.
  induction l1 as [|e l1 IH]; [reflexivity|].
  destruct e; cbn [app control_port_uses]; try exact IH. now rewrite IH.
Qed.

Lemma control_port_uses_map_Core t : control_port_uses (map Core t) = [].
Proof. induction t as [|e t IH]; [reflexivity|]. exact IH. Qed.

Lemma runs_app l1 l2 : runs (l1 ++ l2) = runs l1 ++ runs l2.
Proof.
  induction l1 as [|e l1 IH]; [reflexivity|].
  destruct e; cbn [app runs]; try exact IH. now rewrite IH.
Qed.

Lemma runs_map_Core t : runs (map Core t) = [].
Proof. induction t as [|e t IH]; [reflexivity|]. exact IH. Qed.

Lemma check_calls_app l1 l2 : check_calls (l1 ++ l2) = check_calls l1 ++ check_calls l2.
Proof.
  induction l1 as [|e l1 IH]; [reflexivity|].
  destruct e; cbn [app check_calls]; try exact IH. now rewrite IH.
Qed.

Lemma check_calls_map_Core t : check_calls (map Core t) = [].
Proof. induction t as [|e t IH]; [reflexivity|]. exact IH. Qed.

Lemma skipn_length_app {A} (l k : list A) : skipn (length l) (l ++ k) = k.
Proof. induction l as [|a l IH]; [reflexivity|exact IH]. Qed.

(** The log the world answers from, when the history of the function is
    the one it started with, or has grown by [t]. *)
Lemma world_log_app l (t : list event) :
  l ++ map Core (skipn (length (core_of l)) (core_of l ++ t)) = l ++ map Core t.
Proof. now rewrite skipn_length_app. Qed.

Lemma world_log l :
  l ++ map Core (skipn (length (core_of l)) (core_of l)) = l.
Proof.
  rewrite <- (app_nil_r (core_of l)) at 2. rewrite skipn_length_app.
  apply app_nil_r.
Qed.

Lemma lift_run {A} (c : environment -> M A) l a t :
  c (world hst l) (core_of l) = (Ok a, core_of l ++ t) ->
  lift hst c l = (Returned a, l ++ map Core t).
Proof. intros E. unfold lift. now rewrite E, skipn_length_app. Qed.

Lemma lift_raise {A} (c : environment -> M A) l e t :
  c (world hst l) (core_of l) = (Raise e, core_of l ++ t) ->
  lift hst c l = (Raised e, l ++ map Core t).
Proof. intros E. unfold lift. now rewrite E, skipn_length_app. Qed.

Lemma hbind_run {A B} (c : H A) (k : A -> H B) l a l' :
  c l = (Returned a, l') -> hbind c k l = k a l'.
Proof. intros E. unfold hbind. now rewrite E. Qed.

Lemma say_run n l : say n l = (Returned tt, l ++ [Say n]).
Proof. reflexivity. Qed.

Lemma lift_verbose_print_run s l :
  lift hst (fun w => verbose_print w s) l
  = (Returned tt, l ++ map Core (verbose_trace env s)).
Proof.
  apply (lift_run (fun w => verbose_print w s)).
  exact (verbose_print_run (world hst l) s (core_of l)).
Qed.

Lemma lift_os_system_run cmd l :
  lift hst (fun w => os_system w cmd) l
  = (Returned (exit_status hst l cmd), l ++ [Core (EvSystem cmd (exit_status hst l cmd))]).
Proof.
  apply (lift_run (fun w => os_system w cmd) l _ [_]).
  unfold os_system. cbn [world system_status]. now rewrite world_log.
Qed.

Lemma lift_check_output_run cmd l :
  lift hst (fun w => check_output w cmd) l
  = (Returned (if exit_status hst l cmd =? 0 then Completed
               else CalledProcessError (exit_status hst l cmd)),
     l ++ [Core (EvSystem cmd (exit_status hst l cmd))]).
Proof.
  apply (lift_run (fun w => check_output w cmd) l _ [_]).
  unfold check_output. cbn [world system_status]. now rewrite world_log.
Qed.

Lemma lift_sleep_run secs l :
  0 <= secs ->
  lift hst (fun _ => sleep secs) l = (Returned tt, l ++ [Core (EvSleep secs)]).
Proof.
  intros Hs. apply (lift_run (fun _ => sleep secs) l _ [_]). now apply sleep_run.
Qed.

Lemma lift_requests_get_run rq l :
  lift hst (fun w => requests_get w rq) l
  = (match http hst l rq with
     | inl e => Raised (RequestException e)
     | inr r => Returned r
     end, l ++ [Core (EvHttpGet rq (http hst l rq))]).
Proof.
  unfold lift, requests_get. cbn [world http_reply]. rewrite world_log.
  destruct (http hst l rq); now rewrite skipn_length_app.
Qed.

Lemma verbose_trace_silent s :
  commands (verbose_trace env s) = [] /\ sleeps (verbose_trace env s) = []
  /\ http_requests (verbose_trace env s) = []
  /\ newnym_tries (verbose_trace env s) = 0%nat.
Proof. unfold verbose_trace. destruct (VERBOSE_MODE env); now repeat split. Qed.

Lemma verbose_trace_no_newnym s : count is_newnym (verbose_trace env s) = 0%nat.
Proof. unfold verbose_trace. now destruct (VERBOSE_MODE env). Qed.

Lemma hret_run {A} (a : A) l : hret a l = (Returned a, l).
Proof. reflexivity. Qed.

Ltac hrun :=
  repeat first
    [ erewrite hbind_run by (apply lift_verbose_print_run)
    | match goal with
      | |- context [hbind (hret ?a) ?k ?l] =>
          rewrite (hbind_run (hret a) k l a l (hret_run a l))
      end
    | erewrite hbind_run by (apply say_run)
    | erewrite hbind_run by (apply lift_os_system_run)
    | erewrite hbind_run by (apply lift_check_output_run)
    | rewrite lift_verbose_print_run
    | rewrite say_run ].

Ltac hnorm := repeat first [rewrite <- app_assoc | progress cbn [app]].

(** Reads a log made of lifted traces, notices and single entries. *)
Ltac hread :=
  repeat first
    [ rewrite core_of_app | rewrite core_of_map_Core
    | rewrite notices_app | rewrite notices_map_Core
    | rewrite control_port_uses_app | rewrite control_port_uses_map_Core
    | rewrite runs_app | rewrite runs_map_Core
    | rewrite check_calls_app | rewrite check_calls_map_Core
    | rewrite commands_app | rewrite sleeps_app | rewrite http_requests_app
    | rewrite count_app
    | rewrite (proj1 (verbose_trace_silent _))
    | rewrite (proj1 (proj2 (verbose_trace_silent _)))
    | rewrite (proj1 (proj2 (proj2 (verbose_trace_silent _))))
    | rewrite verbose_trace_no_newnym
    | progress cbn [core_of notices control_port_uses runs check_calls
                    commands sleeps http_requests app count is_newnym
                    Nat.add] ].

(** What [is_tor_installed] leaves in the log. *)
Lemma is_tor_installed_run l :
  exists v l',
    is_tor_installed hst l = (Returned v, l ++ l')
    /\ notices l' = [] /\ runs l' = [] /\ check_calls l' = []
    /\ control_port_uses l' = []
    /\ http_requests (core_of l') = [] /\ sleeps (core_of l') = []
    /\ newnym_tries (core_of l') = 0%nat
    /\ incl (commands (core_of l')) ["which tor"]
    /\ (get_os_type env = "Linux" \/ get_os_type env = "macOS" ->
        v = (exit_status hst l "which tor" =? 0)).
Proof.
  unfold is_tor_installed. fold env.
  destruct (get_os_type_cases env) as [E|[E|[E|E]]]; rewrite E;
    cbn [String.eqb Ascii.eqb Bool.eqb orb]; cbv iota.
  1,2: hrun; destruct (exit_status hst l "which tor" =? 0) eqn:Est;
       hrun; unfold hret; eexists _, _; (split; [hnorm; reflexivity|]);
       unfold newnym_tries; hread;
       repeat (split; [reflexivity|]); (split; [apply incl_refl|]);
       intros _; reflexivity.
  - cbv zeta. unfold os_path_exists, hbind at 1 2.
    destruct (path_exists hst l _); unfold hret at 1;
      [|destruct (path_exists hst l _)];
      hrun; unfold hret; eexists _, _; (split; [reflexivity|]);
      unfold newnym_tries; hread;
      repeat (split; [reflexivity|]); (split; [apply incl_nil_l|]);
      intros [?|?]; discriminate.
  - hrun. unfold hret. eexists _, _. split; [reflexivity|].
    unfold newnym_tries. hread.
    repeat (split; [reflexivity|]). split; [apply incl_nil_l|].
    intros [?|?]; discriminate.
Qed.

(** X13. [is_tor_installed] never raises.  On Linux and macOS it runs
    [which tor] once and answers [True] exactly when the status is 0.  On
    Windows it runs nothing and answers [True] exactly when [tor.exe]
    exists under the Tor Browser folder or the Tor folder of
    [%PROGRAMFILES%], [C:\Program Files] when the variable is not set.  On
    an unknown system it answers [False]. *)
Theorem is_tor_installed_by_platform l :
  exists v l',
    is_tor_installed hst l = (Returned v, l ++ l')
    /\ notices l' = []
    /\ (get_os_type env = "Linux" \/ get_os_type env = "macOS" ->
        exists status,
          commands (core_of l') = ["which tor"]
          /\ In (Core (EvSystem "which tor" status)) l'
          /\ v = (status =? 0))
    /\ (get_os_type env = "Windows" ->
        let program_files :=
          default "C:\Program Files" (environ_get hst "PROGRAMFILES") in
        commands (core_of l') = []
        /\ v = path_exists hst l
                 (path_join hst program_files
                    ["Tor Browser"; "Browser"; "TorBrowser"; "Tor"; "tor.exe"])
               || path_exists hst l
                    (path_join hst program_files ["Tor"; "tor.exe"]))
    /\ (get_os_type env = "Unknown" -> v = false /\ commands (core_of l') = []).
Proof.
  unfold is_tor_installed. fold env.
  destruct (get_os_type_cases env) as [E|[E|[E|E]]]; rewrite E;
    cbn [String.eqb Ascii.eqb Bool.eqb orb]; cbv iota.
  1,2: hrun; set (st := exit_status hst _ _);
       destruct (st =? 0) eqn:Est; hrun; unfold hret;
       eexists _, _; (split; [hnorm; reflexivity|]);
       (split; [hread; reflexivity|]);
       (split; [intros _; exists st; rewrite Est; hread;
                split; [reflexivity|split; [|reflexivity]];
                now left|]);
       split; intros; discriminate.
  - cbv zeta. unfold os_path_exists, hbind at 1 2.
    set (tb := path_exists hst l _).
    destruct tb eqn:Etb; unfold hret at 1.
    + hrun. unfold hret. eexists _, _. split; [reflexivity|].
      split; [hread; reflexivity|].
      split; [intros [?|?]; discriminate|].
      split; [|intros; discriminate].
      intros _. hread. split; reflexivity.
    + set (sy := path_exists hst l _).
      destruct sy eqn:Esy; hrun; unfold hret; eexists _, _;
        (split; [reflexivity|]);
        (split; [hread; reflexivity|]);
        (split; [intros [?|?]; discriminate|]);
        (split; [|intros; discriminate]);
        intros _; hread; split; reflexivity.
  - hrun. unfold hret. eexists _, _. split; [reflexivity|].
    split; [hread; reflexivity|].
    split; [intros [?|?]; discriminate|].
    split; [intros; discriminate|].
    intros _. hread. split; reflexivity.
Qed.

(** What [start_tor_service] does. *)
Lemma start_tor_service_run l :
  exists l',
    start_tor_service hst l = (Returned tt, l ++ l')
    /\ commands (core_of l')
       = platform_commands (get_os_type env)
           "sudo systemctl start tor" "brew services start tor"
    /\ control_port_uses l' = []
    /\ http_requests (core_of l') = []
    /\ length (notices l') = 1%nat
    /\ sleeps (core_of l') = []
    /\ newnym_tries (core_of l') = 0%nat
    /\ runs l' = [] /\ check_calls l' = [].
Proof.
  unfold start_tor_service. fold env.
  destruct (get_os_type_cases env) as [E|[E|[E|E]]]; rewrite E;
    cbn [String.eqb Ascii.eqb Bool.eqb]; cbv iota; hrun; unfold hret;
    eexists; (split; [hnorm; reflexivity|]); unfold newnym_tries; hread;
    now repeat split.
Qed.

(** X14. [start_tor_service] never raises and touches neither the
    control port nor the network: it runs one command on Linux, one on
    macOS and none on Windows or an unknown system, where it only prints
    advice. *)
Theorem start_tor_service_commands l :
  exists l',
    start_tor_service hst l = (Returned tt, l ++ l')
    /\ commands (core_of l')
       = platform_commands (get_os_type env)
           "sudo systemctl start tor" "brew services start tor"
    /\ control_port_uses l' = []
    /\ http_requests (core_of l') = []
    /\ length (notices l') = 1%nat.
Proof.
  destruct (start_tor_service_run l) as (l' & Hrun & C1 & C2 & C3 & C4 & _).
  exists l'. split; [exact Hrun|]. split; [exact C1|]. split; [exact C2|].
  split; assumption.
Qed.

(** What [stop_tor_service_gracefully] does, whatever the control port
    answers. *)
Lemma stop_tor_service_gracefully_run l :
  exists l',
    stop_tor_service_gracefully hst l = (Returned tt, l ++ l')
    /\ commands (core_of l')
       = platform_commands (get_os_type env)
           "sudo systemctl stop tor" "brew services stop tor"
    /\ control_port_uses l'
       = (if STEM_AVAILABLE env
          then [(9051, controller_reply hst
                         (l ++ map Core
                            (verbose_trace env
                               ("Attempting to stop Tor service gracefully on "
                                +:+ get_os_type env))))]
          else [])
    /\ newnym_tries (core_of l') = 0%nat
    /\ http_requests (core_of l') = []
    /\ sleeps (core_of l') = []
    /\ length (notices l') = 1%nat.
Proof.
  unfold stop_tor_service_gracefully. fold env. cbv zeta. hrun.
  set (l1 := l ++ map Core _).
  assert (Hrest : forall l2,
    exists l',
      (if String.eqb (get_os_type env) "Linux" then
         hbind (say SayStopLinux) (fun _ =>
           hbind (lift hst (fun w => os_system w "sudo systemctl stop tor")) (fun _ => hret tt))
       else if String.eqb (get_os_type env) "macOS" then
         hbind (say SayStopMacOS) (fun _ =>
           hbind (lift hst (fun w => os_system w "brew services stop tor")) (fun _ => hret tt))
       else if String.eqb (get_os_type env) "Windows" then say SayStopWindows
       else say SayStopUnsupported) l2
      = (Returned tt, l2 ++ l')
      /\ commands (core_of l')
         = platform_commands (get_os_type env)
             "sudo systemctl stop tor" "brew services stop tor"
      /\ control_port_uses l' = []
      /\ newnym_tries (core_of l') = 0%nat
      /\ http_requests (core_of l') = []
      /\ sleeps (core_of l') = []
      /\ length (notices l') = 1%nat).
  { intros l2. clear l1.
    destruct (get_os_type_cases env) as [E|[E|[E|E]]]; rewrite E;
      cbn [String.eqb Ascii.eqb Bool.eqb]; cbv iota; hrun; unfold hret;
      eexists; (split; [hnorm; reflexivity|]); unfold newnym_tries; hread;
      now repeat split. }
  destruct (STEM_AVAILABLE env) eqn:Hstem.
  - unfold hbind at 1. unfold htry. unfold hbind at 1.
    unfold controller_authenticate.
    destruct (controller_reply hst l1) eqn:Hc; cbv beta iota;
      rewrite lift_verbose_print_run;
      match goal with |- context [(l1 ++ ?t1) ++ ?t2] =>
        destruct (Hrest ((l1 ++ t1) ++ t2))
          as (l' & Hrun & C1 & C2 & C3 & C4 & C5 & C6) end;
      rewrite Hrun;
      eexists; (split; [unfold l1; hnorm; reflexivity|]);
      unfold newnym_tries in *; hread;
      rewrite C1, C2, C4, C5, C6, C3; now repeat split.
  - unfold hbind at 1, hret at 1.
    destruct (Hrest l1) as (l' & Hrun & C1 & C2 & C3 & C4 & C5 & C6).
    rewrite Hrun.
    eexists. split; [unfold l1; hnorm; reflexivity|].
    unfold newnym_tries in *. hread.
    rewrite C1, C2, C4, C5, C6, C3. now repeat split.
Qed.

(** X15. [stop_tor_service_gracefully] never raises, whatever exception
    the control port answers with.  It opens the control port once when
    [stem] is there, only to authenticate: no signal is sent.  The stop
    command it then runs depends on the system alone: one on Linux, one on
    macOS, none on Windows or an unknown system. *)
Theorem stop_tor_service_gracefully_commands l :
  exists l',
    stop_tor_service_gracefully hst l = (Returned tt, l ++ l')
    /\ commands (core_of l')
       = platform_commands (get_os_type env)
           "sudo systemctl stop tor" "brew services stop tor"
    /\ length (control_port_uses l') = (if STEM_AVAILABLE env then 1 else 0)%nat
    /\ newnym_tries (core_of l') = 0%nat
    /\ http_requests (core_of l') = [].
Proof.
  destruct (stop_tor_service_gracefully_run l)
    as (l' & Hrun & C1 & C2 & C3 & C4 & _).
  exists l'. rewrite C2. split; [exact Hrun|]. split; [exact C1|].
  split; [now destruct (STEM_AVAILABLE env)|]. split; assumption.
Qed.

Lemma stop_services_run l :
  exists l',
    stop_services hst l = (Returned tt, l ++ l')
    /\ commands (core_of l')
       = platform_commands (get_os_type env)
           "sudo systemctl stop tor" "brew services stop tor"
         ++ ["pkill -f tornet > /dev/null 2>&1"]
    /\ newnym_tries (core_of l') = 0%nat
    /\ http_requests (core_of l') = []
    /\ sleeps (core_of l') = []
    /\ List.last (notices l') SayTerminated = SayServicesStopped.
Proof.
  unfold stop_services. fold env. hrun.
  match goal with |- context [hbind (stop_tor_service_gracefully hst) _ ?l1] =>
    destruct (stop_tor_service_gracefully_run l1)
      as (l' & Hrun & C1 & _ & C3 & C4 & C5 & _) end.
  rewrite (hbind_run _ _ _ _ _ Hrun). hrun.
  eexists. split; [hnorm; reflexivity|].
  unfold newnym_tries in *. hread. rewrite C1, C3, C4, C5.
  split; [reflexivity|]. split; [reflexivity|]. split; [reflexivity|].
  split; [reflexivity|]. now rewrite last_last.
Qed.

(** X16. [stop_services] runs the stop command of the system, if it has
    one, and then [pkill -f tornet], in this order and nothing else; it
    sends no request and no signal to Tor.  The statement takes
    [os.system] to return, as the code does: the pattern of [pkill] is the
    name of the tool itself. *)
Theorem stop_services_commands l :
  exists l',
    stop_services hst l = (Returned tt, l ++ l')
    /\ commands (core_of l')
       = platform_commands (get_os_type env)
           "sudo systemctl stop tor" "brew services stop tor"
         ++ ["pkill -f tornet > /dev/null 2>&1"]
    /\ newnym_tries (core_of l') = 0%nat
    /\ http_requests (core_of l') = [].
Proof.
  destruct (stop_services_run l) as (l' & Hrun & C1 & C2 & C3 & _).
  exists l'. split; [exact Hrun|]. split; [exact C1|]. split; assumption.
Qed.

(** X17. [signal_handler] never returns to the code it interrupted and
    never raises: after the commands of [stop_services] it prints its
    farewell and leaves through [exit(0)], without a pause or a request. *)
Theorem signal_handler_exits l :
  exists l',
    signal_handler hst l = (Exited 0, l ++ l')
    /\ commands (core_of l')
       = platform_commands (get_os_type env)
           "sudo systemctl stop tor" "brew services stop tor"
         ++ ["pkill -f tornet > /dev/null 2>&1"]
    /\ List.last (notices l') SayServicesStopped = SayTerminated
    /\ sleeps (core_of l') = []
    /\ http_requests (core_of l') = [].
Proof.
  unfold signal_handler.
  destruct (stop_services_run l) as (l' & Hrun & C1 & _ & C3 & C4 & _).
  rewrite (hbind_run _ _ _ _ _ Hrun). hrun. unfold hexit.
  eexists. split; [hnorm; reflexivity|].
  hread. rewrite C1, C3, C4.
  split; [now rewrite app_nil_r|]. split; [now rewrite last_last|].
  split; reflexivity.
Qed.

Lemma check_internet_tries_run tries l :
  exists c l' failed,
    check_internet_tries hst tries l = (c, l ++ l')
    /\ sleeps (core_of l') = repeat 1 (length (http_requests (core_of l')))
    /\ Forall (fun q : request * http_outcome => fst q = google_request)
         (http_requests (core_of l'))
    /\ commands (core_of l') = []
    /\ (runs l' = [] /\ check_calls l' = [] /\ control_port_uses l' = []
        /\ newnym_tries (core_of l') = 0%nat)
    /\ ((exists r,
           c = Returned true
           /\ map snd (http_requests (core_of l')) = map inl failed ++ [inr r]
           /\ (length failed < length tries)%nat
           /\ List.last (notices l') SayCheckingInternet = SayInternetOk)
        \/ (c = Exited 1
            /\ map snd (http_requests (core_of l')) = map inl failed
            /\ length failed = length tries
            /\ List.last (notices l') SayCheckingInternet = SayInternetGaveUp)).
Proof.
  revert l. induction tries as [|j tries IH]; intros l.
  - cbn [check_internet_tries]. hrun. unfold hexit.
    exists (Exited 1), [Say SayInternetGaveUp], [].
    split; [reflexivity|]. split; [reflexivity|]. split; [constructor|].
    split; [reflexivity|]. split; [now repeat split|]. right. now repeat split.
  - cbn [check_internet_tries].
    rewrite (hbind_run _ _ _ _ _ (lift_sleep_run 1 l ltac:(lia))).
    set (l1 := l ++ [Core (EvSleep 1)]).
    pose proof (lift_requests_get_run google_request l1) as Hget.
    destruct (http hst l1 google_request) as [e|r] eqn:Hreply.
    + unfold hbind at 1. unfold htry. unfold hbind at 1. rewrite Hget.
      cbv beta iota. cbn [is_RequestException]. hrun. unfold hret at 1.
      match goal with |- context [check_internet_tries hst tries ?l2] =>
        destruct (IH l2)
          as (c & l' & failed & Hrun & C1 & C2 & C3 & (Q1 & Q2 & Q3 & Q4) & C4)
      end.
      rewrite Hrun.
      exists c, ([Core (EvSleep 1); Core (EvHttpGet google_request (inl e));
                  Say SayInternetFailed] ++ l'), (e :: failed).
      split; [unfold l1; hnorm; reflexivity|].
      unfold newnym_tries in *. hread. rewrite C1, C3, Q1, Q2, Q3, Q4.
      split; [reflexivity|]. split; [now constructor|]. split; [reflexivity|].
      split; [now repeat split|].
      destruct C4 as [(r & -> & C5 & C6 & C7)|(-> & C5 & C6 & C7)].
      * left. exists r. cbn [length map app snd]. rewrite C5.
        split; [reflexivity|]. split; [reflexivity|]. split; [lia|].
        destruct (notices l'); [discriminate C7|exact C7].
      * right. cbn [length map app snd]. rewrite C5.
        split; [reflexivity|]. split; [reflexivity|]. split; [lia|].
        destruct (notices l'); [discriminate C7|exact C7].
    + unfold hbind at 1. unfold htry. unfold hbind at 1. rewrite Hget.
      hrun. unfold hret.
      exists (Returned true),
        [Core (EvSleep 1); Core (EvHttpGet google_request (inr r));
         Say SayInternetOk], [].
      split; [unfold l1; hnorm; reflexivity|].
      split; [reflexivity|]. split; [now repeat constructor|].
      split; [reflexivity|]. split; [now repeat split|]. left. exists r.
      split; [reflexivity|]. split; [reflexivity|]. split; [cbn; lia|reflexivity].
Qed.

(** X18. [check_internet_connection] never returns [False] and never
    raises: it returns [True] at the first of at most three requests that
    gets any answer at all, an error status included, and after three
    requests that raised it leaves the process through [exit(1)].  Every
    request goes to the same address without the proxy, after a pause of
    one second. *)
Theorem check_internet_connection_outcome l :
  exists c l' failed,
    check_internet_connection hst l = (c, l ++ l')
    /\ sleeps (core_of l') = repeat 1 (length (http_requests (core_of l')))
    /\ Forall (fun q : request * http_outcome => fst q = google_request)
         (http_requests (core_of l'))
    /\ proxies google_request = ∅
    /\ ((exists r,
           c = Returned true
           /\ map snd (http_requests (core_of l')) = map inl failed ++ [inr r]
           /\ (length failed < 3)%nat)
        \/ (c = Exited 1
            /\ map snd (http_requests (core_of l')) = map inl failed
            /\ length failed = 3%nat)).
Proof.
  unfold check_internet_connection. hrun.
  destruct (check_internet_tries_run (range 0 3) (l ++ [Say SayCheckingInternet]))
    as (c & l' & failed & Hrun & C1 & C2 & _ & _ & C4).
  exists c, ([Say SayCheckingInternet] ++ l'), failed.
  split; [rewrite Hrun; hnorm; reflexivity|].
  hread. split; [exact C1|]. split; [exact C2|]. split; [reflexivity|].
  destruct C4 as [(r & -> & C5 & C6 & _)|(-> & C5 & C6 & _)].
  - left. exists r. now repeat split.
  - right. now repeat split.
Qed.

(** * utils.py *)

(** What [run_command] does. *)
Lemma run_command_run command description check_success l :
  exists l' out,
    run_command hst command description check_success l
    = (Returned (negb check_success && (if out is inl _ then false else true)
                 || succeeded out), l ++ l')
    /\ core_of l' = [] /\ runs l' = [(command, out)]
    /\ check_calls l' = [] /\ control_port_uses l' = [].
Proof.
  unfold run_command.
  assert (Hhead : exists t,
    (if truthy description then say (SayDoing (default "" description)) else hret tt) l
    = (Returned tt, l ++ t)
    /\ core_of t = [] /\ runs t = [] /\ check_calls t = [] /\ control_port_uses t = []).
  { destruct (truthy description).
    - eexists. rewrite say_run. now repeat split.
    - exists []. unfold hret. rewrite app_nil_r. now repeat split. }
  destruct Hhead as (t & Hhead & T1 & T2 & T3 & T4).
  rewrite (hbind_run _ _ _ _ _ Hhead).
  unfold htry, hbind at 1, subprocess_run.
  set (out := run_reply hst (l ++ t) command).
  exists (t ++ [Run command out] ++
          match out with
          | inl e => [Say (SayCommandException command (exn_message e))]
          | inr result =>
              if check_success && negb (fst result =? 0)
              then [Say (SayCommandFailed command);
                    Say (SayCommandError (strip (snd result)))]
              else []
          end), out.
  split.
  - destruct out as [e|[code err]]; cbn [fst snd succeeded].
    + hrun. unfold hret. rewrite andb_false_r. cbn [orb]. hnorm. reflexivity.
    + destruct check_success, (code =? 0); cbn [andb negb orb]; hrun;
        unfold hret; hnorm; rewrite ?app_nil_r; reflexivity.
  - hread. rewrite T1, T2, T3, T4.
    destruct out as [e|[code err]];
      [|destruct (check_success && negb (fst (code, err) =? 0))];
      now repeat split.
Qed.

(** X19. [run_command] never raises and starts exactly one process.  With
    [check_success] it returns [True] exactly when the process ended with
    status 0; without it, whenever [subprocess.run] returned at all. *)
Theorem run_command_outcome command description check_success l :
  exists v l' out,
    run_command hst command description check_success l = (Returned v, l ++ l')
    /\ runs l' = [(command, out)]
    /\ (check_success = true -> v = succeeded out)
    /\ (check_success = false -> v = if out is inl _ then false else true).
Proof.
  destruct (run_command_run command description check_success l)
    as (l' & out & Hrun & _ & R & _).
  eexists _, l', out. split; [exact Hrun|]. split; [exact R|].
  split; intros ->; [reflexivity|].
  destruct out as [e|[code err]]; cbn [negb andb orb succeeded]; [reflexivity|].
  reflexivity.
Qed.

Lemma is_command_available_run command l :
  is_command_available hst command l = (Returned (which hst l command), l).
Proof. reflexivity. Qed.

Lemma import_module_run name l :
  import_module hst name l = (Returned (can_import hst l name), l).
Proof. reflexivity. Qed.

Lemma hbind_assoc {A B C} (c : H A) (k1 : A -> H B) (k2 : B -> H C) l :
  hbind (hbind c k1) k2 l = hbind c (fun x => hbind (k1 x) k2) l.
Proof. unfold hbind. now destruct (c l) as [[] ?]. Qed.

Ltac step_which :=
  rewrite ?hbind_assoc;
  rewrite (hbind_run _ _ _ _ _ (is_command_available_run _ _)).

Ltac step_run_command :=
  rewrite ?hbind_assoc;
  match goal with
  | |- context [hbind (run_command hst ?c ?d ?s) _ ?l0] =>
      let l' := fresh "l'" in
      let out := fresh "out" in
      let Hrun := fresh "Hrun" in
      destruct (run_command_run c d s l0) as (l' & out & Hrun & ?R & ?R & ?R & ?R);
      rewrite (hbind_run _ _ _ _ _ Hrun)
  | |- context [run_command hst ?c ?d ?s ?l0] =>
      let l' := fresh "l'" in
      let out := fresh "out" in
      let Hrun := fresh "Hrun" in
      destruct (run_command_run c d s l0) as (l' & out & Hrun & ?R & ?R & ?R & ?R);
      rewrite Hrun
  end.

(** Closes a run of an installer: the log, then what it shows. *)
Ltac close_install :=
  repeat first [rewrite hbind_assoc | progress hrun]; unfold hret; eexists _, _;
  (split; [hnorm; reflexivity|]);
  hread;
  repeat match goal with
         | R : _ = _ |- _ => rewrite R
         end;
  cbn [map fst snd existsb negb andb orb app];
  rewrite ?orb_false_r;
  repeat split; try reflexivity.

(** What [install_tor] does. *)
Lemma install_tor_run l :
  exists v l',
    install_tor hst l = (Returned v, l ++ l')
    /\ core_of l' = [] /\ check_calls l' = [] /\ control_port_uses l' = []
    /\ map fst (runs l')
       = (if which hst (l ++ [Say SayCheckingTor]) "tor" then []
          else first_available (which hst (l ++ [Say SayCheckingTor]))
                 (tor_installers (system_name hst)))
    /\ v = which hst (l ++ [Say SayCheckingTor]) "tor"
           || existsb (fun r => succeeded (snd r)) (runs l').
Proof.
  unfold install_tor. fold env. hrun. step_which.
  set (l0 := l ++ [Say SayCheckingTor]).
  destruct (which hst l0 "tor") eqn:Etor; [unfold l0; close_install|].
  cbv zeta. unfold first_available, tor_installers.
  destruct (String.eqb (system_name hst) "Linux") eqn:EL.
  { cbn [find fst snd]. step_which.
    destruct (which hst l0 "apt") eqn:Eapt;
      [step_run_command; unfold l0; close_install|].
    step_which.
    destruct (which hst l0 "yum") eqn:Eyum;
      [step_run_command; unfold l0; close_install|].
    step_which.
    destruct (which hst l0 "dnf") eqn:Ednf;
      [step_run_command; unfold l0; close_install|].
    step_which.
    destruct (which hst l0 "pacman") eqn:Epac;
      [step_run_command; unfold l0; close_install|].
    unfold l0; close_install. }
  destruct (String.eqb (system_name hst) "Darwin") eqn:ED.
  { cbn [find fst snd]. step_which.
    destruct (which hst l0 "brew") eqn:Ebrew;
      [step_run_command; unfold l0; close_install|].
    unfold l0; close_install. }
  destruct (String.eqb (system_name hst) "Windows") eqn:EW;
    cbn [find]; unfold l0; close_install.
Qed.

(** X20. [install_tor] never raises.  It runs nothing when [tor] is on
    the path; otherwise it runs one command, that of the first package
    manager found among apt, yum, dnf and pacman on Linux and of Homebrew
    on macOS, and none on any other system.  It returns [True] exactly
    when [tor] was on the path or the command ended with status 0. *)
Theorem install_tor_outcome l :
  exists v l',
    install_tor hst l = (Returned v, l ++ l')
    /\ map fst (runs l')
       = (if which hst (l ++ [Say SayCheckingTor]) "tor" then []
          else first_available (which hst (l ++ [Say SayCheckingTor]))
                 (tor_installers (system_name hst)))
    /\ v = which hst (l ++ [Say SayCheckingTor]) "tor"
           || existsb (fun r => succeeded (snd r)) (runs l')
    /\ core_of l' = [].
Proof.
  destruct (install_tor_run l) as (v & l' & Hrun & C1 & _ & _ & C4 & C5).
  exists v, l'. split; [exact Hrun|]. split; [exact C4|]. split; assumption.
Qed.

(** What [install_pip] does. *)
Lemma install_pip_run l :
  exists v l',
    install_pip hst l = (Returned v, l ++ l')
    /\ core_of l' = [] /\ check_calls l' = [] /\ control_port_uses l' = []
    /\ map fst (runs l')
       = (if which hst (l ++ [Say SayCheckingPip]) "pip"
             || which hst (l ++ [Say SayCheckingPip]) "pip3" then []
          else first_available (which hst (l ++ [Say SayCheckingPip]))
                 (pip_installers (system_name hst)))
    /\ v = which hst (l ++ [Say SayCheckingPip]) "pip"
           || which hst (l ++ [Say SayCheckingPip]) "pip3"
           || existsb (fun r => succeeded (snd r)) (runs l').
Proof.
  unfold install_pip. fold env. hrun. step_which.
  set (l0 := l ++ [Say SayCheckingPip]).
  assert (Hfound :
    (if which hst l0 "pip" then hret true else is_command_available hst "pip3") l0
    = (Returned (which hst l0 "pip" || which hst l0 "pip3"), l0)).
  { now destruct (which hst l0 "pip"). }
  rewrite (hbind_run _ _ _ _ _ Hfound). clear Hfound.
  destruct (which hst l0 "pip" || which hst l0 "pip3") eqn:Epip;
    [unfold l0; close_install|].
  cbv zeta. unfold first_available, pip_installers.
  destruct (String.eqb (system_name hst) "Linux") eqn:EL.
  { cbn [find fst snd]. step_which.
    destruct (which hst l0 "apt") eqn:Eapt;
      [step_run_command; unfold l0; close_install|].
    step_which.
    destruct (which hst l0 "yum") eqn:Eyum;
      [step_run_command; unfold l0; close_install|].
    step_which.
    destruct (which hst l0 "dnf") eqn:Ednf;
      [step_run_command; unfold l0; close_install|].
    step_which.
    destruct (which hst l0 "pacman") eqn:Epac;
      [step_run_command; unfold l0; close_install|].
    unfold l0; close_install. }
  destruct (String.eqb (system_name hst) "Darwin") eqn:ED.
  { cbn [find fst snd]. step_which.
    destruct (which hst l0 "brew") eqn:Ebrew;
      [step_run_command; unfold l0; close_install|].
    unfold l0; close_install. }
  destruct (String.eqb (system_name hst) "Windows") eqn:EW;
    cbn [find]; unfold l0; close_install.
Qed.

(** X21. [install_pip] never raises.  It runs nothing when [pip] or
    [pip3] is on the path; otherwise it runs one command, that of the
    first package manager found among apt, yum, dnf and pacman on Linux
    and of Homebrew on macOS, and none on any other system.  It returns
    [True] exactly when one of the two was on the path or the command
    ended with status 0. *)
Theorem install_pip_outcome l :
  exists v l',
    install_pip hst l = (Returned v, l ++ l')
    /\ map fst (runs l')
       = (if which hst (l ++ [Say SayCheckingPip]) "pip"
             || which hst (l ++ [Say SayCheckingPip]) "pip3" then []
          else first_available (which hst (l ++ [Say SayCheckingPip]))
                 (pip_installers (system_name hst)))
    /\ v = which hst (l ++ [Say SayCheckingPip]) "pip"
           || which hst (l ++ [Say SayCheckingPip]) "pip3"
           || existsb (fun r => succeeded (snd r)) (runs l')
    /\ core_of l' = [].
Proof.
  destruct (install_pip_run l) as (v & l' & Hrun & C1 & _ & _ & C4 & C5).
  exists v, l'. split; [exact Hrun|]. split; [exact C4|]. split; assumption.
Qed.

(** What [install_requests] and [install_stem] do. *)
Lemma install_requests_run l :
  exists v l',
    install_requests hst l = (Returned v, l ++ l')
    /\ core_of l' = [] /\ check_calls l' = [] /\ control_port_uses l' = []
    /\ map fst (runs l')
       = (if can_import hst (l ++ [Say SayCheckingRequests]) "requests" then []
          else [sys_executable hst +:+ " -m pip install requests"])
    /\ v = can_import hst (l ++ [Say SayCheckingRequests]) "requests"
           || existsb (fun r => succeeded (snd r)) (runs l').
Proof.
  unfold install_requests. hrun.
  rewrite (hbind_run _ _ _ _ _ (import_module_run _ _)).
  set (l0 := l ++ [Say SayCheckingRequests]).
  destruct (can_import hst l0 "requests") eqn:E; [unfold l0; close_install|].
  hrun. step_run_command. unfold l0. close_install.
Qed.

Lemma install_stem_run l :
  exists v l',
    install_stem hst l = (Returned v, l ++ l')
    /\ core_of l' = [] /\ check_calls l' = [] /\ control_port_uses l' = []
    /\ map fst (runs l')
       = (if can_import hst (l ++ [Say SayCheckingStem]) "stem" then []
          else [sys_executable hst +:+ " -m pip install stem"])
    /\ v = can_import hst (l ++ [Say SayCheckingStem]) "stem"
           || existsb (fun r => succeeded (snd r)) (runs l').
Proof.
  unfold install_stem. hrun.
  rewrite (hbind_run _ _ _ _ _ (import_module_run _ _)).
  set (l0 := l ++ [Say SayCheckingStem]).
  destruct (can_import hst l0 "stem") eqn:E; [unfold l0; close_install|].
  hrun. step_run_command. unfold l0. close_install.
Qed.

(** X22. [install_requests] and [install_stem] never raise.  Each runs
    nothing when its library can be imported, and otherwise the one
    command [<sys.executable> -m pip install <library>]; it returns [True]
    exactly when the import worked or the command ended with status 0. *)
Theorem install_library_outcome l :
  (exists v l',
     install_requests hst l = (Returned v, l ++ l')
     /\ map fst (runs l')
        = (if can_import hst (l ++ [Say SayCheckingRequests]) "requests" then []
           else [sys_executable hst +:+ " -m pip install requests"])
     /\ v = can_import hst (l ++ [Say SayCheckingRequests]) "requests"
            || existsb (fun r => succeeded (snd r)) (runs l'))
  /\ (exists v l',
        install_stem hst l = (Returned v, l ++ l')
        /\ map fst (runs l')
           = (if can_import hst (l ++ [Say SayCheckingStem]) "stem" then []
              else [sys_executable hst +:+ " -m pip install stem"])
        /\ v = can_import hst (l ++ [Say SayCheckingStem]) "stem"
               || existsb (fun r => succeeded (snd r)) (runs l')).
Proof.
  split.
  - destruct (install_requests_run l) as (v & l' & Hrun & _ & _ & _ & C4 & C5).
    exists v, l'. split; [exact Hrun|]. split; assumption.
  - destruct (install_stem_run l) as (v & l' & Hrun & _ & _ & _ & C4 & C5).
    exists v, l'. split; [exact Hrun|]. split; assumption.
Qed.

(** * Setting up and repairing *)

Lemma configure_browser_for_tor_run l :
  exists l',
    configure_browser_for_tor hst l = (Returned tt, l ++ l')
    /\ core_of l' = [] /\ runs l' = [] /\ check_calls l' = []
    /\ control_port_uses l' = [].
Proof.
  unfold configure_browser_for_tor. fold env. cbv zeta. hrun.
  destruct (get_os_type_cases env) as [E|[E|[E|E]]]; rewrite E;
    cbn [String.eqb Ascii.eqb Bool.eqb]; cbv iota;
    repeat first [rewrite hbind_assoc | progress hrun];
    eexists; (split; [hnorm; reflexivity|]); hread; now repeat split.
Qed.

Lemma print_start_message_run l :
  exists l',
    print_start_message hst l = (Returned tt, l ++ l')
    /\ core_of l' = [] /\ runs l' = [] /\ check_calls l' = []
    /\ control_port_uses l' = [].
Proof.
  unfold print_start_message. hrun.
  eexists. split; [hnorm; reflexivity|]. hread. now repeat split.
Qed.

(** Steps over a call whose run lemma is [lem], keeping what the lemma
    says of its log. *)
Ltac step_with lem :=
  match goal with
  | |- context [hbind ?c _ ?l0] =>
      let v := fresh "v" in
      let l' := fresh "l'" in
      let Hrun := fresh "Hrun" in
      destruct (lem l0) as (v & l' & Hrun & ?F & ?F & ?F & ?F & ?F);
      rewrite (hbind_run _ _ _ _ _ Hrun)
  end.

(** The four installers in a row, as [initialize_environment] and
    [auto_fix] call them. *)
Lemma installers_run {A} (k : H A) l :
  exists t,
    hbind (install_pip hst) (fun _ =>
      hbind (install_requests hst) (fun _ =>
        hbind (install_stem hst) (fun _ =>
          hbind (install_tor hst) (fun _ => k)))) l
    = k (l ++ t)
    /\ core_of t = [] /\ check_calls t = [] /\ control_port_uses t = []
    /\ (length (runs t) <= 4)%nat.
Proof.
  destruct (install_pip_run l) as (v1 & l1 & H1 & A1 & A2 & A3 & A4 & _).
  rewrite (hbind_run _ _ _ _ _ H1).
  destruct (install_requests_run (l ++ l1)) as (v2 & l2 & H2 & B1 & B2 & B3 & B4 & _).
  rewrite (hbind_run _ _ _ _ _ H2).
  destruct (install_stem_run ((l ++ l1) ++ l2)) as (v3 & l3 & H3 & C1 & C2 & C3 & C4 & _).
  rewrite (hbind_run _ _ _ _ _ H3).
  destruct (install_tor_run (((l ++ l1) ++ l2) ++ l3))
    as (v4 & l4 & H4 & D1 & D2 & D3 & D4 & _).
  rewrite (hbind_run _ _ _ _ _ H4).
  exists (l1 ++ l2 ++ l3 ++ l4).
  split; [now rewrite <- !app_assoc|].
  rewrite !core_of_app, !check_calls_app, !control_port_uses_app, !runs_app,
    !length_app, A1, A2, A3, B1, B2, B3, C1, C2, C3, D1, D2, D3.
  repeat (split; [reflexivity|]).
  assert (L1 : (length (runs l1) <= 1)%nat).
  { rewrite <- (length_map fst), A4.
    destruct (_ || _); [cbn; lia|]. unfold first_available.
    destruct (find _ _); cbn; lia. }
  assert (L2 : (length (runs l2) <= 1)%nat).
  { rewrite <- (length_map fst), B4. destruct (can_import hst _ "requests"); cbn; lia. }
  assert (L3 : (length (runs l3) <= 1)%nat).
  { rewrite <- (length_map fst), C4. destruct (can_import hst _ "stem"); cbn; lia. }
  assert (L4 : (length (runs l4) <= 1)%nat).
  { rewrite <- (length_map fst), D4.
    destruct (which hst _ "tor"); [cbn; lia|]. unfold first_available.
    destruct (find _ _); cbn; lia. }
  lia.
Qed.

(** What [initialize_environment] does. *)
Lemma initialize_environment_run l :
  exists l',
    initialize_environment hst l = (Returned tt, l ++ l')
    /\ commands (core_of l')
       = platform_commands (get_os_type env)
           "sudo systemctl start tor" "brew services start tor"
    /\ http_requests (core_of l') = [] /\ sleeps (core_of l') = []
    /\ newnym_tries (core_of l') = 0%nat
    /\ check_calls l' = [] /\ control_port_uses l' = []
    /\ (length (runs l') <= 4)%nat.
Proof.
  unfold initialize_environment. fold env. hrun.
  match goal with |- context [hbind (install_pip hst) _ ?l0] =>
    destruct (installers_run
                (hbind (start_tor_service hst) (fun _ =>
                   hbind (print_start_message hst) (fun _ =>
                     configure_browser_for_tor hst))) l0)
      as (t & Hrun & T1 & T2 & T3 & T4) end.
  rewrite Hrun. clear Hrun.
  match goal with |- context [hbind (start_tor_service hst) _ ?l0] =>
    destruct (start_tor_service_run l0)
      as (l1 & Hrun & S1 & S2 & S3 & _ & S5 & S6 & S7 & S8) end.
  rewrite (hbind_run _ _ _ _ _ Hrun). clear Hrun.
  match goal with |- context [hbind (print_start_message hst) _ ?l0] =>
    destruct (print_start_message_run l0) as (l2 & Hrun & P1 & P2 & P3 & P4) end.
  rewrite (hbind_run _ _ _ _ _ Hrun). clear Hrun.
  match goal with |- context [configure_browser_for_tor hst ?l0] =>
    destruct (configure_browser_for_tor_run l0) as (l3 & Hrun & B1 & B2 & B3 & B4) end.
  rewrite Hrun. clear Hrun.
  eexists. split; [hnorm; reflexivity|].
  unfold newnym_tries in *. hread.
  rewrite T1, T2, T3, S1, S2, S3, S5, S6, S7, S8, P1, P2, P3, P4, B1, B2, B3, B4.
  cbn [app commands http_requests sleeps count]. rewrite !app_nil_r.
  repeat (split; [reflexivity|]). exact T4.
Qed.

(** X23. [initialize_environment] never raises and takes no notice of
    what the installers return: whether they succeed or fail, it goes on
    to start the Tor service with the command of the system.  It starts
    at most four installing processes, sends no request and does not use
    the control port. *)
Theorem initialize_environment_goes_on l :
  exists l',
    initialize_environment hst l = (Returned tt, l ++ l')
    /\ commands (core_of l')
       = platform_commands (get_os_type env)
           "sudo systemctl start tor" "brew services start tor"
    /\ (length (runs l') <= 4)%nat
    /\ http_requests (core_of l') = []
    /\ control_port_uses l' = [].
Proof.
  destruct (initialize_environment_run l)
    as (l' & Hrun & C1 & C2 & _ & _ & _ & C6 & C7).
  exists l'. split; [exact Hrun|]. split; [exact C1|]. split; [exact C7|].
  split; assumption.
Qed.

(** What [auto_fix] does. *)
Lemma auto_fix_run l :
  exists c l' out,
    auto_fix hst l = (c, l ++ l')
    /\ check_calls l'
       = [[sys_executable hst; "-m"; "pip"; "install"; "--upgrade"; "tornet"]]
    /\ In (CheckCall [sys_executable hst; "-m"; "pip"; "install"; "--upgrade"; "tornet"]
             out) l'
    /\ c = (match out with inl e => Raised e | inr _ => Returned tt end)
    /\ commands (core_of l') = [] /\ http_requests (core_of l') = []
    /\ sleeps (core_of l') = [] /\ newnym_tries (core_of l') = 0%nat
    /\ control_port_uses l' = []
    /\ (length (runs l') <= 4)%nat.
Proof.
  unfold auto_fix. fold env. hrun.
  match goal with |- context [hbind (install_pip hst) _ ?l0] =>
    destruct (installers_run
                (hbind (say SayAssumingPackage) (fun _ =>
                   hbind (check_call hst
                            [sys_executable hst; "-m"; "pip"; "install"; "--upgrade";
                             TOOL_NAME])
                     (fun r => match r with
                               | Completed => hret tt
                               | CalledProcessError _ => say SayUpgradeFailed
                               end))) l0)
      as (t & Hrun & T1 & T2 & T3 & T4) end.
  rewrite Hrun. clear Hrun. hrun.
  unfold hbind, check_call. unfold TOOL_NAME.
  match goal with |- context [check_call_reply hst ?l0 ?args] =>
    set (out := check_call_reply hst l0 args) end.
  exists (match out with inl e => Raised e | inr _ => Returned tt end),
    (map Core (verbose_trace env "Running auto-fix...") ++ t
     ++ [Say SayAssumingPackage;
         CheckCall [sys_executable hst; "-m"; "pip"; "install"; "--upgrade"; "tornet"]
           out]
     ++ match out with
        | inr st => if st =? 0 then [] else [Say SayUpgradeFailed]
        | inl _ => []
        end), out.
  split.
  - destruct out as [e|st]; [hnorm; reflexivity|].
    destruct (st =? 0); unfold hret, say; hnorm; reflexivity.
  - unfold newnym_tries. hread. rewrite T1, T2, T3.
    assert (Htail :
      let tail := match out with
                  | inr st => if st =? 0 then [] else [Say SayUpgradeFailed]
                  | inl _ => []
                  end in
      core_of tail = [] /\ check_calls tail = [] /\ control_port_uses tail = []
      /\ runs tail = []).
    { destruct out as [e|st]; [|destruct (st =? 0)]; now repeat split. }
    destruct Htail as (-> & -> & -> & ->).
    cbn [app commands http_requests sleeps count length].
    split; [reflexivity|]. split.
    { apply in_or_app. right. apply in_or_app. right. right. now left. }
    repeat (split; [reflexivity|]). rewrite app_nil_r. exact T4.
Qed.

(** X24. [auto_fix] runs the installers and then always the upgrade
    [<sys.executable> -m pip install --upgrade tornet], whatever the
    installers returned.  A status other than 0 of the upgrade is
    absorbed; only a failure to start it is raised.  It never starts or
    stops Tor and sends no request. *)
Theorem auto_fix_always_upgrades l :
  exists c l' out,
    auto_fix hst l = (c, l ++ l')
    /\ check_calls l'
       = [[sys_executable hst; "-m"; "pip"; "install"; "--upgrade"; "tornet"]]
    /\ In (CheckCall [sys_executable hst; "-m"; "pip"; "install"; "--upgrade"; "tornet"]
             out) l'
    /\ c = (match out with inl e => Raised e | inr _ => Returned tt end)
    /\ commands (core_of l') = []
    /\ http_requests (core_of l') = [].
Proof.
  destruct (auto_fix_run l) as (c & l' & out & Hrun & C1 & C2 & C3 & C4 & C5 & _).
  exists c, l', out. split; [exact Hrun|]. split; [exact C1|]. split; [exact C2|].
  split; [exact C3|]. split; assumption.
Qed.



End HostRuns.

(** * main *)

Lemma signal_attribute_run hst name l :
  signal_names hst name = true ->
  signal_attribute hst name l = (Returned name, l).
Proof. intros E. unfold signal_attribute. now rewrite E. Qed.

Lemma signal_signal_run signum l :
  signal_signal signum l = (Returned tt, l ++ [Signal signum]).
Proof. reflexivity. Qed.

Lemma setup_logging_run hst verbose l :
  (forall l path, makedirs_reply hst l path = None) ->
  (forall l path, log_file_reply hst l path = None) ->
  setup_logging hst verbose l
  = (Returned tt,
     l ++ [MakeDirs "logs" None;
           LogFile ("logs/tornet_" +:+ today hst (l ++ [MakeDirs "logs" None]) +:+ ".log")
             None;
           BasicConfig verbose verbose]).
Proof.
  intros Hmk Hlog. unfold setup_logging, hbind, makedirs, file_handler.
  rewrite Hmk, Hlog. now rewrite <- !app_assoc.
Qed.

Ltac hnorm := repeat first [rewrite <- app_assoc | progress cbn [app]].

Ltac hread :=
  repeat first
    [ rewrite core_of_app | rewrite core_of_map_Core
    | rewrite notices_app | rewrite notices_map_Core
    | rewrite control_port_uses_app | rewrite control_port_uses_map_Core
    | rewrite runs_app | rewrite runs_map_Core
    | rewrite check_calls_app | rewrite check_calls_map_Core
    | rewrite commands_app | rewrite sleeps_app | rewrite http_requests_app
    | rewrite count_app
    | progress cbn [core_of notices control_port_uses runs check_calls
                    commands sleeps http_requests app count is_newnym
                    Nat.add] ].

(** The start of [main], up to the flags. *)
Ltac start_main Hstart :=
  let Hint := fresh "Hint" in
  let Hquit := fresh "Hquit" in
  let Hparse := fresh "Hparse" in
  let Hmk := fresh "Hmk" in
  let Hlog := fresh "Hlog" in
  destruct Hstart as (Hint & Hquit & Hparse & Hmk & Hlog);
  unfold main;
  erewrite hbind_run by (apply signal_attribute_run; exact Hint);
  erewrite hbind_run by (apply signal_signal_run);
  erewrite hbind_run by (apply signal_attribute_run; exact Hquit);
  erewrite hbind_run by (apply signal_signal_run);
  erewrite hbind_run by (rewrite Hparse; reflexivity);
  cbv zeta;
  erewrite hbind_run
    by (apply setup_logging_run; intros; first [apply Hmk | apply Hlog]);
  erewrite hbind_run by reflexivity.

(** Steps over [is_tor_installed], whose answer [Hfound] gives. *)
Ltac step_installed Hfound :=
  match goal with
  | |- context [hbind (is_tor_installed ?h) _ ?l0] =>
      let v := fresh "v" in
      let Hrun := fresh "Hrun" in
      let E := fresh "E" in
      destruct (is_tor_installed_run h l0)
        as (v & li & Hrun & I1 & I2 & I3 & I4 & I5 & I6 & I7 & I8 & _);
      pose proof (Hfound l0) as E; rewrite Hrun in E; cbn [fst] in E;
      injection E as ->;
      rewrite (hbind_run _ _ _ _ _ Hrun); clear Hrun
  end.


(** X26. When [is_tor_installed] says no, [main] prints what is missing
    and returns: nothing is installed, even under [--auto-fix], nothing is
    started or stopped and no request is sent. *)
Theorem main_without_tor hst fuel a l :
  starts hst a ->
  args_ip a = false ->
  tor_found false hst a ->
  exists l',
    main hst fuel l = (Returned tt, l ++ l')
    /\ notices l' = [SayTorMissing]
    /\ runs l' = [] /\ check_calls l' = [] /\ control_port_uses l' = []
    /\ http_requests (core_of l') = [] /\ sleeps (core_of l') = []
    /\ incl (commands (core_of l')) ["which tor"].
Proof.
  intros Hstart Hip Hfound. start_main Hstart. rewrite Hip.
  step_installed Hfound. cbn [negb]. rewrite say_run.
  eexists. split; [hnorm; reflexivity|].
  hread. rewrite I1, I2, I3, I4, I5, I6, !app_nil_r.
  repeat (split; [reflexivity|]). exact I8.
Qed.

(** X27. [--auto-fix] comes before [--stop] and before the rotation:
    with Tor found, [main] runs [auto_fix] and returns.  The upgrade is
    attempted once, Tor is neither started nor stopped, no request is
    sent; the call ends normally unless the upgrade could not be
    started. *)
Theorem main_auto_fix_flag hst fuel a l :
  starts hst a ->
  args_ip a = false ->
  tor_found true hst a ->
  args_auto_fix a = true ->
  exists c l' out,
    main hst fuel l = (c, l ++ l')
    /\ check_calls l'
       = [[sys_executable hst; "-m"; "pip"; "install"; "--upgrade"; "tornet"]]
    /\ In (CheckCall [sys_executable hst; "-m"; "pip"; "install"; "--upgrade"; "tornet"]
             out) l'
    /\ c = (match out with inl e => Raised e | inr _ => Returned tt end)
    /\ incl (commands (core_of l')) ["which tor"]
    /\ http_requests (core_of l') = [] /\ sleeps (core_of l') = []
    /\ control_port_uses l' = [].
Proof.
  intros Hstart Hip Hfound Hfix. start_main Hstart. rewrite Hip.
  step_installed Hfound. cbn [negb]. rewrite Hfix.
  match goal with |- context [hbind (auto_fix ?h) _ ?l0] =>
    destruct (auto_fix_run h l0)
      as (c & lf & out & Hrun & F1 & F2 & F3 & F4 & F5 & F6 & F7 & F8 & _) end.
  change (sys_executable (with_verbose (args_verbose a) hst))
    with (sys_executable hst) in *.
  exists (match out with inl e => Raised e | inr _ => Returned tt end).
  exists ([Signal "SIGINT"; Signal "SIGQUIT"; MakeDirs "logs" None;
           LogFile ("logs/tornet_"
                    +:+ today hst (l ++ [Signal "SIGINT"; Signal "SIGQUIT";
                                         MakeDirs "logs" None])
                    +:+ ".log") None;
           BasicConfig (args_verbose a) (args_verbose a);
           LogInfo "Starting Tornet v2.1.0"]
          ++ li ++ lf
          ++ match out with inl _ => [] | inr _ => [Say SayAutoFixComplete] end).
  exists out. split.
  - unfold hbind at 1. rewrite Hrun, F3.
    destruct out; rewrite ?say_run; hnorm; rewrite ?app_nil_r; reflexivity.
  - assert (Htail :
      let tail := match out with inl _ => [] | inr _ => [Say SayAutoFixComplete] end in
      core_of tail = [] /\ check_calls tail = [] /\ control_port_uses tail = []).
    { destruct out; now repeat split. }
    destruct Htail as (T1 & T2 & T3).
    hread. rewrite I3, I4, I5, I6, F1, F4, F5, F6, F8, T1, T2, T3.
    cbn [app]. rewrite !app_nil_r.
    split; [reflexivity|].
    split; [right; right; right; right; right; right;
            apply in_or_app; right; apply in_or_app; left; exact F2|].
    split; [reflexivity|]. split; [exact I8|]. now repeat split.
Qed.

(** X28. [--stop] comes before the rotation: with Tor found and no
    [--auto-fix], [main] runs the commands of [stop_services] and
    returns, without the connectivity check, any pause or any request. *)
Theorem main_stop_flag hst fuel a l :
  starts hst a ->
  args_ip a = false ->
  tor_found true hst a ->
  args_auto_fix a = false ->
  args_stop a = true ->
  exists l' checks,
    main hst fuel l = (Returned tt, l ++ l')
    /\ commands (core_of l')
       = checks
         ++ platform_commands (get_os_type (world hst []))
              "sudo systemctl stop tor" "brew services stop tor"
         ++ ["pkill -f tornet > /dev/null 2>&1"]
    /\ incl checks ["which tor"]
    /\ http_requests (core_of l') = [] /\ sleeps (core_of l') = [].
Proof.
  intros Hstart Hip Hfound Hfix Hstop. start_main Hstart. rewrite Hip.
  step_installed Hfound. cbn [negb]. rewrite Hfix, Hstop.
  match goal with |- context [stop_services ?h ?l0] =>
    destruct (stop_services_run h l0) as (ls & Hrun & S1 & _ & S3 & S4 & _) end.
  rewrite Hrun.
  eexists _, (commands (core_of li)). split; [hnorm; reflexivity|].
  hread. rewrite S1, S3, S4, I5, I6.
  split; [reflexivity|]. split; [exact I8|]. now repeat split.
Qed.


(** X30. Where the [signal] module has no [SIGQUIT], as on Windows,
    [main] raises [AttributeError] as soon as it starts: the handler of
    [SIGINT] is registered, the command line is not read and nothing else
    happens. *)
Theorem main_needs_SIGQUIT hst fuel l :
  signal_names hst "SIGINT" = true ->
  signal_names hst "SIGQUIT" = false ->
  main hst fuel l
  = (Raised (Exception "module 'signal' has no attribute 'SIGQUIT'"),
     l ++ [Signal "SIGINT"]).
Proof.
  intros Hint Hquit. unfold main.
  erewrite hbind_run by (apply signal_attribute_run; exact Hint).
  erewrite hbind_run by (apply signal_signal_run).
  unfold hbind, signal_attribute. now rewrite Hquit.
Qed.


(** * Runs in scripted worlds *)






Lemma rotation_strategy_is_chosen_afresh_witness :
  STEM_AVAILABLE second_attempt_world = true
  /\ 0 <= 5
  /\ exists r t,
       change_ip second_attempt_world 3 5 [] = (Ok r, t)
       /\ newnym_tries t = attempts t
       /\ reload_calls t = newnym_failures t.
Proof.
  assert (Hs : 0 <= 5) by lia.
  split; [reflexivity|]. split; [exact Hs|].
  destruct (rotation_strategy_is_chosen_afresh second_attempt_world eq_refl)
    as (_ & Hcall).
  destruct (Hcall 3 5 [] Hs) as (r & t & Hrun & Hc).
  exists r, t. rewrite Hrun. split; [reflexivity|exact Hc].
Defined.

Lemma control_port_failure_falls_back_to_reload_witness :
  0 <= 5
  /\ STEM_AVAILABLE second_attempt_world = true
  /\ newnym_at second_attempt_world ([] ++ [EvPrint (MsgAttempt 1 3)])
     = Some (Exception "authentication failed")
  /\ exists status t,
       rotate second_attempt_world [EvPrint (MsgAttempt 1 3)] = (Ok tt, t)
       /\ In (EvNewnym 9051 (Some (Exception "authentication failed"))) t
       /\ In (EvSystem "sudo systemctl reload tor" status) t.
Proof.
  assert (Hs : 0 <= 5) by lia.
  assert (He : newnym_at second_attempt_world ([] ++ [EvPrint (MsgAttempt 1 3)])
               = Some (Exception "authentication failed"))
    by (vm_compute; reflexivity).
  split; [exact Hs|]. split; [reflexivity|]. split; [exact He|].
  destruct (control_port_failure_falls_back_to_reload second_attempt_world
              1 [2; 3] 3 5 (Some "1.2.3.4") [] (Exception "authentication failed")
              Hs eq_refl He)
    as (_ & _ & Hrot & Hnewnym & _ & Hlinux & _).
  destruct (Hlinux ltac:(vm_compute; reflexivity)) as (status & Hsys).
  cbn [app] in Hrot, Hnewnym, Hsys.
  eexists status, _. split; [exact Hrot|]. split.
  - right. apply in_or_app. left. exact Hnewnym.
  - right. apply in_or_app. right. exact Hsys.
Defined.


(** C3, as the specification words it, fails: where the control port
    refuses the signal and the reload command is dispatched and exits with
    status 0, no step of the rotation returns [True].  The control-port
    function returns [False] and [reload_tor_service] returns [None]. *)
Lemma fallback_rotation_returns_no_true :
  let world := second_attempt_world in
  let h1 := snd (change_ip_via_control_port world []) in
  fst (change_ip_via_control_port world []) = Ok false
  /\ fst (reload_tor_service world h1) = Ok PyNone
  /\ snd (rotate world []) = snd (reload_tor_service world h1)
  /\ In (EvSystem "sudo systemctl reload tor" 0) (snd (rotate world []))
  /\ fst (change_ip_via_control_port world []) <> Ok true
  /\ fst (reload_tor_service world h1) <> Ok (PyBool true).
Proof.
  cbv zeta. split; [vm_compute; reflexivity|].
  split; [vm_compute; reflexivity|].
  split; [vm_compute; reflexivity|].
  split; [vm_compute; tauto|].
  split; vm_compute; discriminate.
Qed.

(** ** Edges of the loops *)

Lemma change_ip_without_retries_witness :
  0 <= 0
  /\ fst (change_ip stuck_world 0 5 []) = Ok None
  /\ attempts (snd (change_ip stuck_world 0 5 [])) = 0%nat.
Proof.
  assert (Hm : 0 <= 0) by lia. split; [exact Hm|].
  destruct (change_ip_without_retries stuck_world 0 5 [] Hm) as (Hrun & _ & Hatt & _).
  rewrite Hrun. split; [reflexivity|exact Hatt].
Defined.



Lemma rotation_without_stem_witness :
  STEM_AVAILABLE reload_only_world = false
  /\ forall h, rotate reload_only_world h = (Ok tt, h ++ reload_trace reload_only_world h).
Proof.
  assert (Hstem : STEM_AVAILABLE reload_only_world = false) by reflexivity.
  split; [exact Hstem|].
  destruct (rotation_without_stem reload_only_world Hstem) as (Hrot & _).
  intros h. apply Hrot.
Defined.

Lemma blank_reply_is_no_address_witness :
  let r := {| status_code := 200; text := "  "; json := None |} in
  0 <= 5
  /\ tor_reply blank_world ([] ++ attempt_prefix blank_world 1 3 5 []) = inr r
  /\ error_status r = false
  /\ blank (text r) = true
  /\ candidate_at blank_world 1 3 5 [] = Some "".
Proof.
  intros r.
  assert (Hs : 0 <= 5) by lia.
  assert (Hreply : tor_reply blank_world ([] ++ attempt_prefix blank_world 1 3 5 []) = inr r)
    by (vm_compute; reflexivity).
  assert (Hstatus : error_status r = false) by reflexivity.
  assert (Hblank : blank (text r) = true) by reflexivity.
  split; [exact Hs|]. split; [exact Hreply|]. split; [exact Hstatus|].
  split; [exact Hblank|].
  exact (proj1 (blank_reply_is_no_address blank_world 1 [2; 3] 3 5 None [] r
                  Hs Hreply Hstatus Hblank)).
Defined.

Lemma change_ip_repeatedly_negative_count_witness :
  -1 < 0 /\ change_ip_repeatedly stuck_world 0 60 (-1) [] = (Ok tt, []).
Proof.
  assert (Hc : -1 < 0) by lia. split; [exact Hc|].
  exact (change_ip_repeatedly_negative_count stuck_world 0 60 (-1) [] Hc).
Defined.



(** ** [main] on scripted hosts *)

Lemma host_of_starts w a : starts (host_of w unix_signals a) a.
Proof. unfold starts. repeat split. Qed.

(** On Linux the answer of [is_tor_installed] is the status of
    [which tor]. *)
Lemma host_of_tor_found w a found :
  platform_system w = "Linux" ->
  (forall h, (system_status w h "which tor" =? 0) = found) ->
  tor_found found (host_of w unix_signals a) a.
Proof.
  intros Hos Hstatus l.
  destruct (is_tor_installed_run (with_verbose (args_verbose a) (host_of w unix_signals a)) l)
    as (v & li & Hrun & _ & _ & _ & _ & _ & _ & _ & _ & Hv).
  rewrite Hrun. cbn [fst]. f_equal. rewrite Hv.
  - apply Hstatus.
  - left. unfold get_os_type. cbn [world platform_system with_verbose host_of system_name].
    now rewrite Hos.
Qed.


Lemma main_without_tor_witness :
  let a := flags false true false in
  starts (host_of bare_world unix_signals a) a
  /\ args_ip a = false
  /\ tor_found false (host_of bare_world unix_signals a) a
  /\ exists l',
       main (host_of bare_world unix_signals a) 0 [] = (Returned tt, l')
       /\ notices l' = [SayTorMissing] /\ runs l' = [].
Proof.
  intros a.
  assert (Hstart : starts (host_of bare_world unix_signals a) a) by apply host_of_starts.
  assert (Hip : args_ip a = false) by reflexivity.
  assert (Hfound : tor_found false (host_of bare_world unix_signals a) a)
    by (apply host_of_tor_found; [reflexivity|intros h; reflexivity]).
  split; [exact Hstart|]. split; [exact Hip|]. split; [exact Hfound|].
  destruct (main_without_tor (host_of bare_world unix_signals a) 0 a [] Hstart Hip Hfound)
    as (l' & Hrun & Hsay & Hruns & _).
  exists l'. split; [exact Hrun|]. split; assumption.
Defined.

Lemma main_auto_fix_flag_witness :
  let a := flags false true true in
  starts (host_of stuck_world unix_signals a) a
  /\ args_ip a = false
  /\ tor_found true (host_of stuck_world unix_signals a) a
  /\ args_auto_fix a = true
  /\ exists c l',
       main (host_of stuck_world unix_signals a) 0 [] = (c, l')
       /\ check_calls l'
          = [["/usr/bin/python3"; "-m"; "pip"; "install"; "--upgrade"; "tornet"]]
       /\ incl (commands (core_of l')) ["which tor"].
Proof.
  intros a.
  assert (Hstart : starts (host_of stuck_world unix_signals a) a) by apply host_of_starts.
  assert (Hip : args_ip a = false) by reflexivity.
  assert (Hfound : tor_found true (host_of stuck_world unix_signals a) a)
    by (apply host_of_tor_found; [reflexivity|intros h; reflexivity]).
  assert (Hfix : args_auto_fix a = true) by reflexivity.
  split; [exact Hstart|]. split; [exact Hip|]. split; [exact Hfound|].
  split; [exact Hfix|].
  destruct (main_auto_fix_flag (host_of stuck_world unix_signals a) 0 a []
              Hstart Hip Hfound Hfix)
    as (c & l' & out & Hrun & Hcalls & _ & _ & Hcmd & _).
  exists c, l'. split; [exact Hrun|]. split; assumption.
Defined.

Lemma main_stop_flag_witness :
  let a := flags false false true in
  starts (host_of stuck_world unix_signals a) a
  /\ args_ip a = false
  /\ tor_found true (host_of stuck_world unix_signals a) a
  /\ args_auto_fix a = false
  /\ args_stop a = true
  /\ exists l',
       main (host_of stuck_world unix_signals a) 0 [] = (Returned tt, l')
       /\ http_requests (core_of l') = [] /\ sleeps (core_of l') = [].
Proof.
  intros a.
  assert (Hstart : starts (host_of stuck_world unix_signals a) a) by apply host_of_starts.
  assert (Hip : args_ip a = false) by reflexivity.
  assert (Hfound : tor_found true (host_of stuck_world unix_signals a) a)
    by (apply host_of_tor_found; [reflexivity|intros h; reflexivity]).
  assert (Hfix : args_auto_fix a = false) by reflexivity.
  assert (Hstop : args_stop a = true) by reflexivity.
  split; [exact Hstart|]. split; [exact Hip|]. split; [exact Hfound|].
  split; [exact Hfix|]. split; [exact Hstop|].
  destruct (main_stop_flag (host_of stuck_world unix_signals a) 0 a []
              Hstart Hip Hfound Hfix Hstop)
    as (l' & checks & Hrun & _ & _ & Hreq & Hsl).
  exists l'. split; [exact Hrun|]. split; assumption.
Defined.


Lemma main_needs_SIGQUIT_witness :
  let hst := host_of stuck_world windows_signals (flags false false false) in
  signal_names hst "SIGINT" = true
  /\ signal_names hst "SIGQUIT" = false
  /\ main hst 0 []
     = (Raised (Exception "module 'signal' has no attribute 'SIGQUIT'"),
        [Signal "SIGINT"]).
Proof.
  intros hst.
  assert (Hint : signal_names hst "SIGINT" = true) by reflexivity.
  assert (Hquit : signal_names hst "SIGQUIT" = false) by reflexivity.
  split; [exact Hint|]. split; [exact Hquit|].
  exact (main_needs_SIGQUIT hst 0 [] Hint Hquit).
Defined.

(** ** Sample runs *)

Example strip_trailing_newline :
  strip ("  1.2.3.4" +:+ String "010"%char "") = "1.2.3.4".
Proof. vm_compute. reflexivity. Qed.

Example stuck_world_gives_up :
  fst (change_ip stuck_world 3 5 []) = Ok None
  /\ attempts (snd (change_ip stuck_world 3 5 [])) = 3%nat.
Proof. split; vm_compute; reflexivity. Qed.

(** Attempt 1 falls back to the reload, attempt 2 gets its signal through
    and reloads nothing. *)
Example second_attempt_world_rotations :
  let t := snd (change_ip second_attempt_world 3 5 []) in
  fst (change_ip second_attempt_world 3 5 []) = Ok (Some "5.6.7.8")
  /\ attempts t = 2%nat /\ newnym_tries t = 2%nat
  /\ newnym_failures t = 1%nat /\ reload_calls t = 1%nat.
Proof. cbv zeta. repeat split; vm_compute; reflexivity. Qed.

Example probes_offline :
  fst (ma_ip_tor offline_world []) = Ok None
  /\ fst (ma_ip_normal offline_world []) = Ok None
  /\ fst (get_ip_geolocation offline_world (Some "5.6.7.8") []) = Ok "Unknown".
Proof. repeat split; vm_compute; reflexivity. Qed.

Example geolocation_of_nothing :
  get_ip_geolocation stuck_world None [] = (Ok "Unknown", [])
  /\ get_ip_geolocation stuck_world (Some "") [] = (Ok "Unknown", []).
Proof. split; reflexivity. Qed.

Example geolocation_of_an_address :
  fst (get_ip_geolocation stuck_world (Some "5.6.7.8") []) = Ok "Iceland".
Proof. vm_compute. reflexivity. Qed.

Example three_cycles_of_failure :
  fst (change_ip_repeatedly stuck_world 0 60 3 []) = Ok tt
  /\ change_ip_calls (snd (change_ip_repeatedly stuck_world 0 60 3 [])) = 3%nat.
Proof. split; vm_compute; reflexivity. Qed.

(** The stop command, then [pkill]; the connectivity check is not run. *)
Example main_stop_commands :
  let hst := host_of stuck_world unix_signals (flags false false true) in
  fst (main hst 0 []) = Returned tt
  /\ commands (core_of (snd (main hst 0 [])))
     = ["which tor"; "sudo systemctl stop tor"; "pkill -f tornet > /dev/null 2>&1"]
  /\ notices (snd (main hst 0 [])) = [SayStopLinux; SayServicesStopped].
Proof. cbv zeta. repeat split; vm_compute; reflexivity. Qed.

(** Without network the connectivity check ends the run with status 1. *)
Example main_offline :
  let hst := host_of unplugged_world unix_signals (flags false false false) in
  fst (main hst 0 []) = Exited 1
  /\ sleeps (core_of (snd (main hst 0 []))) = [1; 1; 1]
  /\ runs (snd (main hst 0 [])) = [].
Proof. cbv zeta. repeat split; vm_compute; reflexivity. Qed.

(** [--ip] on a system where Tor runs: the probe through Tor and the
    geolocation request. *)
Example main_shows_the_address :
  let hst := host_of stuck_world unix_signals (flags true false false) in
  fst (main hst 0 []) = Returned tt
  /\ commands (core_of (snd (main hst 0 []))) = ["pgrep -x tor"]
  /\ map fst (http_requests (core_of (snd (main hst 0 []))))
     = [tor_request; geolocation_request (Some "1.2.3.4")].
Proof. cbv zeta. repeat split; vm_compute; reflexivity. Qed.

(** With every tool missing [install_tor] tries apt first. *)
Example install_tor_prefers_apt :
  let hst :=
    {| stem_available := false; verbose_mode := false; system_name := "Linux";
       http := fun _ _ => inl (ConnectionError "unreachable");
       newnym := fun _ => None;
       exit_status := fun _ _ => 0;
       controller_reply := fun _ => None;
       environ_get := fun _ => None;
       path_join := fun first _ => first;
       path_exists := fun _ _ => false;
       which := fun _ c => String.eqb c "apt" || String.eqb c "dnf";
       run_reply := fun _ _ => inr (100, "E: Unable to locate package tor");
       check_call_reply := fun _ _ => inr 0;
       can_import := fun _ _ => false;
       sys_executable := "python3";
       platform_release := "6.1.0";
       platform_machine := "x86_64";
       signal_names := unix_signals;
       parse_args := inl 2;
       makedirs_reply := fun _ _ => None;
       today := fun _ => "20240101";
       log_file_reply := fun _ _ => None |} in
  fst (install_tor hst []) = Returned false
  /\ map fst (runs (snd (install_tor hst [])))
     = ["sudo apt update && sudo apt install -y tor"]
  /\ notices (snd (install_tor hst []))
     = [SayCheckingTor; SayDoing "Installing Tor via apt";
        SayCommandFailed "sudo apt update && sudo apt install -y tor";
        SayCommandError "E: Unable to locate package tor"].
Proof. cbv zeta. repeat split; vm_compute; reflexivity. Qed.
